(** * iotagent-lwm2m-lib: protocol engine

    A shallow embedding of the request router ([LWM2MLib.COAPRouter]), the
    device-management operations ([LWM2MLib.DeviceManagement]) and the
    client registration lifecycle ([LWM2MLib.Client]), followed by the
    properties the specification states about them. *)

From Stdlib Require Import ZArith String Ascii List Bool Lia DecimalString.
From stdpp Require Import base option list strings gmap.
Import ListNotations.

Local Open Scope string_scope.
Local Open Scope list_scope.
Local Open Scope nat_scope.

(** ** JavaScript values

    The operations are dynamically typed: address components may be strings
    or numbers, a missing trailing argument is [undefined], and [discover]
    receives its completion callback in whichever position the caller put
    it.  The code only ever converts these values to strings, tests their
    truthiness or calls them, so a number that is not an integer is known
    by the text [ToString] gives for it. *)

Record JsFunction := mkFn { fn_id : nat; fn_source : string }.

Inductive value :=
| VUndefined
| VNull
| VBool (b : bool)
| VNum (n : Z)                 (* an integer, identifiers among them *)
| VReal (text : string)        (* a fraction or an infinity, e.g. [2.5] *)
| VNaN
| VStr (s : string)
| VFun (f : JsFunction).

(** ToBoolean, as used by [if (x)], [x && y], [!x] and [x ? a : b]. *)
Definition truthy (v : value) : bool :=
  match v with
  | VUndefined | VNull | VNaN => false
  | VBool b => b
  | VNum n => negb (n =? 0)%Z
  | VReal _ => true
  | VStr s => negb (String.eqb s "")
  | VFun _ => true
  end.

(** ToString, as applied by ['/' + x]. *)
Definition to_string (v : value) : string :=
  match v with
  | VUndefined => "undefined"
  | VNull => "null"
  | VBool b => if b then "true" else "false"
  | VNum n => NilZero.string_of_int (Z.to_int n)
  | VReal text => text
  | VNaN => "NaN"
  | VStr s => s
  | VFun f => fn_source f
  end.

Definition is_function (v : value) : bool :=
  match v with VFun _ => true | _ => false end.

(** ** Error taxonomy ([lib/errors.js]) *)

Inductive Error :=
| RegistrationFailed (code : string)
| ServerNotFound (hostPort : string)
| ObjectNotFound (path : string)
| ClientError (code : string)
| UnsupportedAttributes (names : list string)
| CollaboratorError (description : string).

(** What a node-style completion callback receives: [callback(error)] or
    [callback(null, result)]. *)
Definition outcome (A : Type) : Type := Error + A.

(** ** Requests and responses of the CoAP transport *)

Record Request := mkRequest {
  req_host : string;
  req_port : value;
  req_method : string;
  req_pathname : string;
  req_query : option string;
  req_payload : option value;
  req_options : list (string * string);
  req_agent : option bool
}.

Record CoapOption := mkOption { opt_name : string; opt_value : string }.

Record Response := mkResponse {
  code : string;
  payload : string;
  options : list CoapOption
}.

Record Device := mkDevice { address : string }.

(** ** Collaborators

    The device registry, the transport helper ([coapUtils]) and the client
    configuration are separate modules of the library; the protocol engine
    only consumes them, so they are interfaces here. *)

Class DeviceRegistry := {
  (** [registry.get(deviceId, callback)]: what the callback receives. *)
  registry_get : value -> outcome Device;
  (** Whether [get] calls back before it returns (an in-memory registry)
      or on a later tick (a database-backed one). *)
  registry_get_sync : bool
}.

Class CoapUtils := {
  (** [coapUtils.sendRequest(request, callback)]: what the callback receives
      once the request has been put on the wire. *)
  transport_send : Request -> outcome Response;
  (** [coapUtils.generateProcessResponse(objectType, objectId, resourceId, code)]. *)
  generateProcessResponse : value -> value -> value -> string -> Response -> outcome string
}.

Record ClientConfig := mkClientConfig {
  lifetime : value;
  version : value;
  client_port : value
}.

(** ** Callback pipelines ([async.waterfall], [async.parallel])

    A pipeline step receives the requests sent so far and hands its
    callback either an error or a result.  [async.waterfall] runs the steps
    in order and jumps to the final callback on the first error. *)

Definition Pipeline (A : Type) : Type := list Request -> outcome A * list Request.

Definition ret {A} (a : A) : Pipeline A := fun sent => (inr a, sent).

Definition bind {A B} (m : Pipeline A) (k : A -> Pipeline B) : Pipeline B :=
  fun sent =>
    match m sent with
    | (inl e, sent') => (inl e, sent')
    | (inr a, sent') => k a sent'
    end.

Definition lift {A} (o : outcome A) : Pipeline A := fun sent => (o, sent).

Notation "'let*' x ':=' m 'in' k" := (bind m (fun x => k))
  (at level 10, x name, m at level 100, k at level 200).

(** Running a pipeline from a quiet network. *)
Definition run {A} (m : Pipeline A) : outcome A * list Request := m [].
Definition result_of {A} (m : Pipeline A) : outcome A := fst (run m).
Definition sent_by {A} (m : Pipeline A) : list Request := snd (run m).

(** [async.parallel([t1, t2], cb)] with two tasks that do no I/O of their
    own: both are started; the callback gets the first error to arrive, or
    both results.  The second task here is always synchronous, so its error
    arrives first exactly when the first task is asynchronous. *)
Definition async_parallel2 {A B} (first_sync : bool)
    (r1 : outcome A) (r2 : outcome B) : outcome (A * B) :=
  if first_sync then
    match r1, r2 with
    | inl e, _ => inl e
    | inr _, inl e => inl e
    | inr a, inr b => inr (a, b)
    end
  else
    match r2, r1 with
    | inl e, _ => inl e
    | inr _, inl e => inl e
    | inr b, inr a => inr (a, b)
    end.

(** ** Device-management operations ([deviceManagement.js]) *)

Module DeviceManagement.
Section Operations.
Context `{!DeviceRegistry, !CoapUtils}.

Definition sendRequest (request : Request) : Pipeline Response :=
  fun sent => (transport_send request, (sent ++ [request])%list).

Definition plainRequest (host : string) (method pathname : string) : Request :=
  {| req_host := host; req_port := VNum 5683; req_method := method;
     req_pathname := pathname; req_query := None; req_payload := None;
     req_options := []; req_agent := None |}.

Definition read (deviceId objectType objectId resourceId : value) : Pipeline string :=
  let* obj := lift (registry_get deviceId) in
  let* request := ret (plainRequest (address obj) "GET"
               ("/" +:+ to_string objectType +:+ "/" +:+ to_string objectId
                    +:+ "/" +:+ to_string resourceId)) in
  let* res := sendRequest request in
  lift (generateProcessResponse objectType objectId resourceId "2.05" res).

(** *** write *)

Definition createUpdateRequest (objectType objectId resourceId value_ : value)
    (obj : Device) : Request :=
  {| req_host := address obj; req_port := VNum 5683; req_method := "PUT";
     req_pathname := "/" +:+ to_string objectType +:+ "/" +:+ to_string objectId
                         +:+ "/" +:+ to_string resourceId;
     req_query := None; req_payload := Some value_;
     req_options := []; req_agent := None |}.

Definition write_processResponse (objectType objectId : value) (res : Response)
    : outcome string :=
  if String.eqb (code res) "2.04" then inr (payload res)
  else if String.eqb (code res) "4.04" then
    inl (ObjectNotFound ("/" +:+ to_string objectType +:+ "/" +:+ to_string objectId))
  else inl (ClientError (code res)).

Definition write (deviceId objectType objectId resourceId value_ : value)
    : Pipeline string :=
  let* obj := lift (registry_get deviceId) in
  let* request := ret (createUpdateRequest objectType objectId resourceId value_ obj) in
  let* res := sendRequest request in
  lift (write_processResponse objectType objectId res).

(** *** writeAttributes *)

(** One enumerable property met by [for (var i in attributes)]; [own] is
    what the built-in [Object.prototype.hasOwnProperty] answers for it. *)
Record Property := mkProperty { key : string; val : value; own : bool }.

(** The function a call [attributes.hasOwnProperty(i)] may reach: the
    built-in one, or some other function, known by the truthiness of what
    it returns for each key ([None] when it throws). *)
Inductive OwnershipTest :=
| BuiltinTest
| CustomTest (answer : string -> option bool).

(** The [attributes] argument: the enumerable properties in the order
    [for ... in] meets them (own ones, then inherited ones), and the
    function found under the name [hasOwnProperty] along the prototype
    chain, if the chain has one ([None] for an object without prototype,
    or when what is found there is not a function). *)
Record AttributeMap := mkAttributes {
  enumerable : list Property;
  ownershipTest : option OwnershipTest
}.

(** An object literal [{name: value, ...}] with the prototype of plain
    objects, so that the function reached under [hasOwnProperty], if any,
    is the built-in one (a literal that stores another function under that
    name is built with [mkAttributes] and a [CustomTest]). *)
Definition plain (properties : list Property) : AttributeMap :=
  {| enumerable := properties; ownershipTest := Some BuiltinTest |}.

(** What [attributes.hasOwnProperty] evaluates to.  An enumerable property
    of that name is the first thing the lookup finds; when it is not a
    function there is nothing to call. *)
Definition hasOwnPropertyOf (attributes : AttributeMap) : option OwnershipTest :=
  match List.find (fun p => String.eqb (key p) "hasOwnProperty") (enumerable attributes) with
  | Some p => if is_function (val p) then ownershipTest attributes else None
  | None => ownershipTest attributes
  end.

(** [attributes.hasOwnProperty(i)] at property [p]; [None] when the call
    throws a TypeError. *)
Definition ownership (test : option OwnershipTest) (p : Property) : option bool :=
  match test with
  | None => None
  | Some BuiltinTest => Some (own p)
  | Some (CustomTest answer) => answer (key p)
  end.

Definition validAttributes : list string :=
  ["pmin"; "pmax"; "gt"; "lt"; "st"; "cancel"].

(** [Array.prototype.indexOf]: the first position of [x], or -1. *)
Fixpoint indexOf (l : list string) (x : string) : Z :=
  match l with
  | [] => -1
  | y :: l' =>
      if String.eqb y x then 0
      else let r := indexOf l' x in if (r <? 0)%Z then -1 else (1 + r)%Z
  end.

(** The loop body, on the pair [(result, errorList)]; [None] once an
    iteration has thrown. *)
Definition queryStep (test : option OwnershipTest)
    (acc : option (string * list string)) (p : Property)
    : option (string * list string) :=
  match acc with
  | None => None
  | Some (result, errorList) =>
      match ownership test p with
      | None => None
      | Some true =>
          if (0 <=? indexOf validAttributes (key p))%Z then
            Some (result +:+ key p +:+ "=" +:+ to_string (val p) +:+ "&", errorList)
          else Some (result, (errorList ++ [key p])%list)
      | Some false => Some (result, errorList)
      end
  end.

(** [createQueryParams(innerCb)]: what [innerCb] receives, or [None] when
    the loop throws before [innerCb] is reached. *)
Definition createQueryParams (attributes : AttributeMap) : option (outcome string) :=
  match fold_left (queryStep (hasOwnPropertyOf attributes))
                  (enumerable attributes) (Some ("?", [])) with
  | None => None
  | Some (result, errorList) =>
      Some (if negb (Nat.eqb (length errorList) 0)
            then inl (UnsupportedAttributes errorList)
            else inr result)
  end.

Definition createWriteAttributesRequest (objectType objectId resourceId : value)
    (data : Device * string) : Request :=
  plainRequest (address (fst data)) "PUT"
    (if truthy objectType && truthy objectId && truthy resourceId then
       "/" +:+ to_string objectType +:+ "/" +:+ to_string objectId
           +:+ "/" +:+ to_string resourceId +:+ snd data
     else if truthy objectType && truthy objectId then
       "/" +:+ to_string objectType +:+ "/" +:+ to_string objectId +:+ snd data
     else "/" +:+ to_string objectType +:+ snd data).

(** What one call has done by the time it and its callbacks have run:
    what the completion callback received (if it was invoked), the
    requests put on the wire, and whether the call threw. *)
Record Invocation := mkInvocation {
  delivered : option (outcome string);
  wired : list Request;
  threw : bool
}.

(** The pipeline of [writeAttributes] once [createQueryParams] has handed
    [query] to its callback. *)
Definition writeAttributesPipeline (deviceId objectType objectId resourceId : value)
    (query : outcome string) : Pipeline string :=
  let* data := lift (async_parallel2 registry_get_sync
                  (registry_get deviceId) query) in
  let* request := ret (createWriteAttributesRequest objectType objectId resourceId data) in
  let* res := sendRequest request in
  lift (generateProcessResponse objectType objectId resourceId "2.04" res).

(** [writeAttributes].  When [createQueryParams] throws, the exception
    leaves [async.parallel] and unwinds the stack of the call; the
    registry lookup has been started all the same, and its error, if any,
    reaches the completion callback (before the exception when the
    registry is synchronous, on a later tick otherwise); its success waits
    for a second result that never comes. *)
Definition writeAttributes (deviceId objectType objectId resourceId : value)
    (attributes : AttributeMap) : Invocation :=
  match createQueryParams attributes with
  | None =>
      {| delivered := match registry_get deviceId with
                      | inl error => Some (inl error)
                      | inr _ => None
                      end;
         wired := [];
         threw := true |}
  | Some query =>
      let '(result, sent) :=
        run (writeAttributesPipeline deviceId objectType objectId resourceId query) in
      {| delivered := Some result; wired := sent; threw := false |}
  end.

(** *** discover *)

Definition createReadRequest (pathname : string) (obj : Device) : Request :=
  {| req_host := address obj; req_port := VNum 5683; req_method := "GET";
     req_pathname := pathname; req_query := None; req_payload := None;
     req_options := [("Accept", "application/link-format")];
     req_agent := None |}.

(** What one call to [discover] sets up: the path it chose, the argument
    it took for the completion callback, and the pipeline it started
    ([None] when it only logs the wrong-number-of-parameters error). *)
Record Discovery := mkDiscovery {
  pathname : string;
  trueCallback : value;
  started : option (Pipeline string)
}.

Definition discover (deviceId objectType objectId resourceId fullCallback : value)
    : Discovery :=
  let '(pathname, trueCallback) :=
    if truthy objectId && truthy resourceId && truthy fullCallback then
      ("/" +:+ to_string objectType +:+ "/" +:+ to_string objectId
           +:+ "/" +:+ to_string resourceId, fullCallback)
    else if truthy objectId && truthy resourceId then
      ("/" +:+ to_string objectType +:+ "/" +:+ to_string objectId, resourceId)
    else ("/" +:+ to_string objectType, objectId) in
  {| pathname := pathname;
     trueCallback := trueCallback;
     started :=
       if negb (truthy objectType) && negb (truthy objectId)
            && negb (truthy resourceId)
       then None
       else Some (
         let* obj := lift (registry_get deviceId) in
         let* request := ret (createReadRequest pathname obj) in
         let* res := sendRequest request in
         lift (generateProcessResponse objectType objectId resourceId "2.05" res)) |}.

(** The requests a discovery puts on the wire. *)
Definition discovery_sent (d : Discovery) : list Request :=
  match started d with
  | Some p => sent_by p
  | None => []
  end.

Definition create (deviceId objectType objectId : value) : Pipeline string :=
  let* obj := lift (registry_get deviceId) in
  let* request := ret (plainRequest (address obj) "POST"
               ("/" +:+ to_string objectType +:+ "/" +:+ to_string objectId)) in
  let* res := sendRequest request in
  lift (generateProcessResponse objectType objectId VNull "2.01" res).

End Operations.

(** *** execute and remove

    Neither touches the registry or the transport.  A call binds the actual
    arguments to the formal parameters by position; applying a value that
    is not a function throws. *)

Inductive OpEffect :=
| Sent (request : Request)
| Invoked (f : JsFunction) (args : list value)
| TypeErrorThrown.

Definition argument (arguments : list value) (i : nat) : value :=
  nth i arguments VUndefined.

Definition apply_value (f : value) (args : list value) : OpEffect :=
  match f with
  | VFun g => Invoked g args
  | _ => TypeErrorThrown
  end.

(** [function execute(callback) { callback(null); }] *)
Definition execute (arguments : list value) : list OpEffect :=
  let callback := argument arguments 0 in
  [apply_value callback [VNull]].

(** [function remove(deviceId, objectType, objectId, callback) { callback(null); }] *)
Definition remove (arguments : list value) : list OpEffect :=
  let callback := argument arguments 3 in
  [apply_value callback [VNull]].

Definition is_sent (e : OpEffect) : bool :=
  match e with Sent _ => true | _ => false end.

End DeviceManagement.

(** ** Request router ([coapRouter.js]) *)

Module CoapRouter.

(** The functions stored in the handler table.  The library handlers live
    in the modules of the read and write services; a user handler is any
    function the application installs. *)
Inductive Handler :=
| WriteHandle
| ReadHandle
| DefaultHandler
| UserHandler (f : JsFunction).

Record HandlerPair := mkHandlerPair { lib : Handler; user : Handler }.

(** A route [[method, regexp, operation]].  The regular expression is kept
    as its match predicate: [pathname.match(re)] is truthy exactly when
    [route_pattern] answers [true]. *)
Record Route := mkRoute {
  route_method : string;
  route_pattern : string -> bool;
  route_operation : string
}.

Record Server := mkServer { server_handle : nat }.

Record ServerInfo := mkServerInfo {
  server : Server;
  routes : list Route;
  handlers : option (gmap string HandlerPair)   (* [null] until loaded *)
}.

(** The result of [require('url').parse(req.url)]. *)
Record UrlObject := mkUrl { url_pathname : option string }.

Class UrlModule := { url_parse : string -> UrlObject }.

Record IncomingMessage := mkIncoming {
  in_method : string;
  in_url : string;
  in_urlObj : option UrlObject
}.

Record ServerResponse := mkServerResponse {
  res_code : string;
  res_body : option string          (* [Some] once [res.end] has run *)
}.

(** One invocation [lib(req, res, user)]. *)
Record LibCall := mkLibCall {
  call_lib : Handler;
  call_req : IncomingMessage;
  call_res : ServerResponse;
  call_user : Handler
}.

Inductive Dispatch :=
| Completed (calls : list LibCall) (res : ServerResponse)
| Threw.

(** The body of [for (var i in serverInfo.routes)], from route [i] on. *)
Fixpoint scanRoutes (handlers : option (gmap string HandlerPair))
    (req : IncomingMessage) (pathname : option string) (res : ServerResponse)
    (routes : list Route) : Dispatch :=
  match routes with
  | [] =>
      Completed [] {| res_code := "4.04"; res_body := Some "" |}
  | route :: later =>
      if String.eqb (in_method req) (route_method route) then
        match pathname with
        | None => Threw                     (* [null.match] *)
        | Some p =>
            if route_pattern route p then
              match handlers with
              | None => Threw               (* [null[name]] *)
              | Some table =>
                  match table !! route_operation route with
                  | None => Threw           (* [undefined.lib] *)
                  | Some entry => Completed [mkLibCall (lib entry) req res (user entry)] res
                  end
              end
            else scanRoutes handlers req pathname res later
        end
      else scanRoutes handlers req pathname res later
  end.

Definition dataHandler `{!UrlModule} (serverInfo : ServerInfo)
    (req : IncomingMessage) (res : ServerResponse) : Dispatch :=
  let urlObj := url_parse (in_url req) in
  let req := {| in_method := in_method req; in_url := in_url req;
                in_urlObj := Some urlObj |} in
  scanRoutes (handlers serverInfo) req (url_pathname urlObj) res (routes serverInfo).

(** [defaultHandler]: the last function among the arguments is called with
    no arguments; with none, calling [null] throws. *)
Definition defaultHandler (arguments : list value) : DeviceManagement.OpEffect :=
  let callback :=
    fold_left (fun callback a => if is_function a then a else callback)
              arguments VNull in
  DeviceManagement.apply_value callback [].

(** [startCoap]: the server is created and asked to listen; the callback
    gets the listen error (if any) together with the fresh [serverInfo]. *)
Definition startCoap (created : Server) (listen_error : option Error)
    : option Error * ServerInfo :=
  (listen_error, {| server := created; routes := []; handlers := None |}).

(** The handler table is a plain object, so besides its own slots it
    answers to the names it inherits from [Object.prototype]; what it
    finds there is a built-in function or object, never a handler pair. *)
Definition inheritedNames : list string :=
  [ "constructor"; "toString"; "toLocaleString"; "valueOf"; "hasOwnProperty";
    "isPrototypeOf"; "propertyIsEnumerable"; "__proto__"; "__defineGetter__";
    "__defineSetter__"; "__lookupGetter__"; "__lookupSetter__" ].

(** [setHandler]: [serverInfo.handlers[type].user = handler]; [None] when
    the assignment throws, on a [null] table or on [undefined] for a name
    the table neither has nor inherits.  For an inherited name the
    assignment lands on the built-in found there, and the server
    information is as before. *)
Definition setHandler (serverInfo : ServerInfo) (type : string) (handler : Handler)
    : option ServerInfo :=
  match handlers serverInfo with
  | None => None
  | Some table =>
      match table !! type with
      | None =>
          if existsb (String.eqb type) inheritedNames then Some serverInfo else None
      | Some entry =>
          Some {| server := server serverInfo; routes := routes serverInfo;
                  handlers := Some (<[type := mkHandlerPair (lib entry) handler]> table) |}
      end
  end.

End CoapRouter.

(** ** Client registration lifecycle ([iotagent-lwm2m-client.js]) *)

Module Client.
Import CoapRouter.

Record LwObject := mkObject { objectUri : string }.

Class ObjectRegistry := {
  (** [objRegistry.list(callback)]: what the callback receives. *)
  objRegistry_list : outcome (list LwObject)
}.

Class Config := { client : ClientConfig }.

Record DeviceInformation := mkDeviceInformation {
  currentHost : string;
  currentPort : value;
  location : string;
  serverInfo : ServerInfo
}.

(** Who is told when the router has stopped. *)
Inductive StopListener :=
| LogStopResult          (* the logging closure of the error handler *)
| CompletionCallback.    (* the caller's callback, handed over by [unregister] *)

(** What a call or an event handler does to the outside world, in order. *)
Inductive Effect :=
| Piped (request : Request) (body : string)            (* [rs.pipe(req)] *)
| Ended (request : Request)                            (* [req.end()] *)
| RouterStop (target : ServerInfo) (listener : StopListener)
| Callback (result : outcome DeviceInformation)
| Thrown.

(** [/(\/\d+)+/], unanchored: some slash is followed by a digit. *)
Definition is_digit (c : ascii) : bool :=
  let n := nat_of_ascii c in (48 <=? n)%nat && (n <=? 57)%nat.

Fixpoint lwm2m_path_pattern (s : string) : bool :=
  match s with
  | EmptyString => false
  | String c rest =>
      match rest with
      | String d _ =>
          (Ascii.eqb c "/"%char && is_digit d) || lwm2m_path_pattern rest
      | EmptyString => false
      end
  end.

Definition loadHandlers (serverInfo : ServerInfo) : ServerInfo :=
  {| server := server serverInfo;
     routes := routes serverInfo;
     handlers := Some (<["write" := mkHandlerPair WriteHandle DefaultHandler]>
                      (<["read" := mkHandlerPair ReadHandle DefaultHandler]> ∅)) |}.

Definition loadRoutes (serverInfo : ServerInfo) : ServerInfo :=
  {| server := server serverInfo;
     routes := [ mkRoute "PUT" lwm2m_path_pattern "write";
                 mkRoute "GET" lwm2m_path_pattern "read" ];
     handlers := handlers serverInfo |}.

(** [startListener]: on a listen error only the error is passed on. *)
Definition startListener (host : string) (port : value)
    (start : option Error * ServerInfo) : outcome DeviceInformation :=
  match start with
  | (Some error, _) => inl error
  | (None, serverInfo) =>
      inr {| currentHost := host; currentPort := port; location := "";
             serverInfo := loadRoutes (loadHandlers serverInfo) |}
  end.

Definition set_location (deviceInformation : DeviceInformation) (v : string)
    : DeviceInformation :=
  {| currentHost := currentHost deviceInformation;
     currentPort := currentPort deviceInformation;
     location := v;
     serverInfo := serverInfo deviceInformation |}.

(** The loop over [res.options]. *)
Definition recordLocation (deviceInformation : DeviceInformation)
    (opts : list CoapOption) : DeviceInformation :=
  fold_left
    (fun di o =>
       if String.eqb (opt_name o) "Location-Path" then set_location di (opt_value o)
       else di)
    opts deviceInformation.

(** [responseHandler(res)] of [createRegisterResponseHandler]: the device
    information after the call, and what the call did.  With no device
    information (the listener failed to start) the 2.01 branch throws on
    [deviceInformation.host]. *)
Definition createRegisterResponseHandler
    (deviceInformation : option DeviceInformation) (res : Response)
    : option DeviceInformation * Effect :=
  if String.eqb (code res) "2.01" then
    match deviceInformation with
    | None => (None, Thrown)
    | Some di =>
        let di' := recordLocation di (options res) in
        (Some di', Callback (inr di'))
    end
  else (deviceInformation, Callback (inl (RegistrationFailed (code res)))).

(** [generatePayload]: the [reduce] over the object list, carrying
    [(index, previous)]. *)
Definition generatePayload (objects : list LwObject) : string :=
  snd (fold_left
         (fun '(index, previous) current =>
            let result := previous +:+ "<" +:+ objectUri current +:+ ">" in
            (S index,
             if negb (Nat.eqb index (length objects - 1)) then result +:+ "," else result))
         objects (0, "")).

Definition clientRequest (host : string) (port : value) (method pathname : string)
    (query : option string) (agent : option bool) : Request :=
  {| req_host := host; req_port := port; req_method := method;
     req_pathname := pathname; req_query := query; req_payload := None;
     req_options := []; req_agent := agent |}.

(** The payload pipeline [objRegistry.list -> generatePayload -> sendRequest]. *)
Definition sendObjects `{!ObjectRegistry} (req : Request) : list Effect :=
  match objRegistry_list with
  | inl _ => []
  | inr objects => [Piped req (generatePayload objects)]
  end.

(** *** register *)

(** One registration request in flight. *)
Record Registration := mkRegistration {
  creationRequest : Request;
  errorEmitted : bool;
  deviceInformation : option DeviceInformation;
  effects : list Effect
}.

Inductive Event :=
| ResponseEvent (res : Response)
| ErrorEvent (error : string).

(** [register], up to the point where both listeners are installed and the
    payload pipeline has run; [start] is what [coapRouter.start] reported. *)
Definition register `{!Config, !ObjectRegistry}
    (host : string) (port : value) (url : value) (endpointName : string)
    (start : option Error * ServerInfo) : Registration :=
  let creationRequest :=
    clientRequest host port "POST"
      ((if truthy url then to_string url else "") +:+ "/rd")
      (Some ("ep=" +:+ endpointName +:+ "&lt=" +:+ to_string (lifetime client)
                   +:+ "&lwm2m=" +:+ to_string (version client) +:+ "&b=U"))
      None in
  {| creationRequest := creationRequest;
     errorEmitted := false;
     deviceInformation :=
       match startListener host port start with
       | inl _ => None
       | inr di => Some di
       end;
     effects := sendObjects creationRequest |}.

(** The ['response'] listener. *)
Definition onResponse (r : Registration) (res : Response) : Registration :=
  let '(di, effect) := createRegisterResponseHandler (deviceInformation r) res in
  {| creationRequest := creationRequest r;
     errorEmitted := errorEmitted r;
     deviceInformation := di;
     effects := (effects r ++ [effect])%list |}.

(** The ['error'] listener: the router is stopped on every error event,
    the callback is guarded by [errorEmitted]. *)
Definition onError (r : Registration) : Registration :=
  match deviceInformation r with
  | None =>
      {| creationRequest := creationRequest r;
         errorEmitted := errorEmitted r;
         deviceInformation := None;
         effects := (effects r ++ [Thrown])%list |}
  | Some di =>
      let stopped := (effects r ++ [RouterStop (serverInfo di) LogStopResult])%list in
      if negb (errorEmitted r) then
        {| creationRequest := creationRequest r;
           errorEmitted := true;
           deviceInformation := Some di;
           effects :=
             (stopped ++
              [Callback (inl (ServerNotFound
                 (req_host (creationRequest r) +:+ ":"
                    +:+ to_string (req_port (creationRequest r)))))])%list |}
      else
        {| creationRequest := creationRequest r;
           errorEmitted := errorEmitted r;
           deviceInformation := Some di;
           effects := stopped |}
  end.

Definition deliver (r : Registration) (e : Event) : Registration :=
  match e with
  | ResponseEvent res => onResponse r res
  | ErrorEvent _ => onError r
  end.

Definition deliverAll (r : Registration) (events : list Event) : Registration :=
  fold_left deliver events r.

(** The arguments the completion callback was invoked with, in order. *)
Definition callbacks (l : list Effect) : list (outcome DeviceInformation) :=
  flat_map (fun e => match e with Callback result => [result] | _ => [] end) l.

Definition router_stops (l : list Effect) : list ServerInfo :=
  flat_map (fun e => match e with RouterStop si _ => [si] | _ => [] end) l.

(** *** unregister and update *)

(** A request built from a registration record, the record as it stands,
    and what has happened so far. *)
Record Exchange := mkExchange {
  ex_request : Request;
  ex_deviceInformation : DeviceInformation;
  ex_effects : list Effect
}.

Definition unregister (deviceInformation : DeviceInformation) : Exchange :=
  let creationRequest :=
    clientRequest (currentHost deviceInformation) (currentPort deviceInformation)
      "DELETE" (location deviceInformation) None (Some false) in
  {| ex_request := creationRequest;
     ex_deviceInformation := deviceInformation;
     ex_effects := [Ended creationRequest] |}.

Definition unregister_onResponse (x : Exchange) (res : Response) : Exchange :=
  {| ex_request := ex_request x;
     ex_deviceInformation := ex_deviceInformation x;
     ex_effects :=
       (ex_effects x ++
        [RouterStop (serverInfo (ex_deviceInformation x)) CompletionCallback])%list |}.

Definition updateRegistration `{!Config, !ObjectRegistry}
    (deviceInformation : DeviceInformation) : Exchange :=
  let creationRequest :=
    clientRequest (currentHost deviceInformation) (currentPort deviceInformation)
      "PUT" (location deviceInformation)
      (Some ("lt=" +:+ to_string (lifetime client)
                   +:+ "&lwm2m=" +:+ to_string (version client) +:+ "&b=U"))
      None in
  {| ex_request := creationRequest;
     ex_deviceInformation := deviceInformation;
     ex_effects := sendObjects creationRequest |}.

Definition update_onResponse (x : Exchange) (res : Response) : Exchange :=
  {| ex_request := ex_request x;
     ex_deviceInformation := ex_deviceInformation x;
     ex_effects :=
       (ex_effects x ++ [Callback (inr (ex_deviceInformation x))])%list |}.

End Client.

(** ** The specification's vocabulary

    Definitions that follow the wording of the specification rather than
    the code; the theorems below compare the two. *)

Module Spec.
Import DeviceManagement CoapRouter Client.

(** The keys of an attribute map: its own properties, in enumeration order. *)
Definition ownProperties (attributes : list Property) : list Property :=
  filter (λ p, own p = true) attributes.

Definition ownKeys (attributes : list Property) : list string :=
  key <$> ownProperties attributes.

(** "The complete list of offending keys". *)
Definition offendingKeys (attributes : list Property) : list string :=
  filter (λ k, k ∉ validAttributes) (ownKeys attributes).

(** The strings of a list written one after the other. *)
Definition juxtaposed (parts : list string) : string := foldr append "" parts.

(** "['?'] followed by ['name=value&'] for each attribute". *)
Definition parameter (p : Property) : string :=
  key p +:+ "=" +:+ to_string (val p) +:+ "&".

Definition queryString (attributes : list Property) : string :=
  "?" +:+ juxtaposed (parameter <$> ownProperties attributes).

(** "The value of the last Location-Path option", if there is one. *)
Definition lastLocationPath (opts : list CoapOption) : option string :=
  opt_value <$> last (filter (λ o, opt_name o = "Location-Path") opts).

(** A route matches a request: "method equality AND path matches pattern". *)
Definition routeMatches (route : Route) (method pathname : string) : Prop :=
  method = route_method route ∧ route_pattern route pathname = true.

End Spec.

(** ** Sample collaborators, used to run the operations on concrete input *)

Module Samples.
Import DeviceManagement CoapRouter Client.

(** An in-memory registry knowing the devices ["1"] and [42]. *)
Definition registry : DeviceRegistry :=
  {| registry_get := fun deviceId =>
       match deviceId with
       | VStr "1" => inr (mkDevice "10.0.0.5")
       | VNum 42 => inr (mkDevice "10.0.0.5")
       | _ => inl (CollaboratorError "device not found")
       end;
     registry_get_sync := true |}.

(** Modelled from the spec: [coapUtils.generateProcessResponse] is not part
    of the sources at hand; section 4.2 gives its mapping as "a response
    whose code equals the declared success code yields the payload, any
    other code a client error carrying the code". *)
Definition processResponse (objectType objectId resourceId : value)
    (expected : string) (res : Response) : outcome string :=
  if String.eqb (code res) expected then inr (payload res)
  else inl (ClientError (code res)).

(** A transport on which every request is answered with [res]. *)
Definition answering (res : Response) : CoapUtils :=
  {| transport_send := fun _ => inr res;
     generateProcessResponse := processResponse |}.

Definition changed : Response := mkResponse "2.04" "" [].
Definition notFound : Response := mkResponse "4.04" "" [].
Definition content : Response := mkResponse "2.05" "</3/0>" [].

Definition done : JsFunction := mkFn 1 "function (error, result) { }".

(** An attribute map within the whitelist. *)
Definition accepted : list Property :=
  [ mkProperty "pmin" (VNum 5) true; mkProperty "lt" (VStr "7") true ].

(** An attribute map with two names outside the whitelist. *)
Definition mixed : list Property :=
  [ mkProperty "pmin" (VNum 5) true; mkProperty "colour" (VStr "red") true;
    mkProperty "st" (VNum 2) true; mkProperty "unit" (VStr "C") true ].

Definition config : Config :=
  {| client := mkClientConfig (VNum 85671) (VStr "1.0") (VNum 9786) |}.

Definition objects : ObjectRegistry :=
  {| objRegistry_list := inr [mkObject "/1/2"; mkObject "/3/4"] |}.

Definition urls : UrlModule :=
  {| url_parse := fun url =>
       mkUrl (if String.eqb url "" then None
              else Some (substring 0
                           (match index 0 "?" url with
                            | Some n => n
                            | None => String.length url
                            end) url)) |}.

Definition fresh : ServerInfo := snd (startCoap (mkServer 0) None).

Definition created (opts : list CoapOption) : Response := mkResponse "2.01" "" opts.

(** The server information of a client whose listener is up. *)
Definition listening : ServerInfo := loadRoutes (loadHandlers fresh).

(** A response nothing has been written to yet. *)
Definition untouched : ServerResponse := mkServerResponse "2.05" None.

(** The record of a device registered under [/rd/136]. *)
Definition registered : DeviceInformation :=
  mkDeviceInformation "localhost" (VStr "5683") "/rd/136" listening.

End Samples.

(** ** Tallies over event sequences and callback logs *)

Module Tally.
Import Client.

Definition is_error_event (e : Event) : bool :=
  match e with ErrorEvent _ => true | ResponseEvent _ => false end.

Definition is_response_event (e : Event) : bool :=
  match e with ResponseEvent _ => true | ErrorEvent _ => false end.

Definition is_server_not_found (result : outcome DeviceInformation) : bool :=
  match result with inl (ServerNotFound _) => true | _ => false end.

(** What the guarded callback of the error listener adds to a count. *)
Definition once (already : bool) (events : list Event) : nat :=
  if already then 0 else if existsb is_error_event events then 1 else 0.

(** The token of one object in the registration payload. *)
Definition token (o : LwObject) : string := "<" +:+ objectUri o +:+ ">".

End Tally.

(** ** Failing collaborators *)

Module Outage.
Import DeviceManagement CoapRouter Client.

(** A transport on which every request times out. *)
Definition unreachable : CoapUtils :=
  {| transport_send := fun _ => inl (CollaboratorError "request timed out");
     generateProcessResponse := Samples.processResponse |}.

(** An object registry whose listing fails. *)
Definition noListing : ObjectRegistry :=
  {| objRegistry_list := inl (CollaboratorError "listing failed") |}.

(** A url parser that finds no pathname. *)
Definition noPath : UrlModule := {| url_parse := fun _ => mkUrl None |}.

(** The handler table [loadHandlers] installs. *)
Definition clientTable : gmap string HandlerPair :=
  <["write" := mkHandlerPair WriteHandle DefaultHandler]>
    (<["read" := mkHandlerPair ReadHandle DefaultHandler]> ∅).

Definition busy : Error := CollaboratorError "EADDRINUSE".

Definition handler : JsFunction := mkFn 2 "function (a, b, callback) { callback(); }".

End Outage.

(** * Properties *)

(** ** Strings and pipelines *)

Lemma append_cons (x : ascii) (a b : string) :
  String x a +:+ b = String x (a +:+ b).
Proof. reflexivity. Qed.

Lemma append_assoc (a b c : string) : (a +:+ b) +:+ c = a +:+ (b +:+ c).
Proof.
  induction a as [|x a IH]; [reflexivity |].
  now rewrite !append_cons, IH.
Qed.

Lemma append_empty_r (a : string) : a +:+ "" = a.
Proof.
  induction a as [|x a IH]; [reflexivity |].
  now rewrite append_cons, IH.
Qed.

Lemma eqb_false_of_ne (a b : string) : a ≠ b → String.eqb a b = false.
Proof. intros Hne. now apply String.eqb_neq. Qed.

(** ** Device-management operations *)

Section DeviceManagementProperties.
Import DeviceManagement Spec.
Context `{!DeviceRegistry, !CoapUtils}.

(** *** write *)

Lemma write_run deviceId objectType objectId resourceId value_ obj :
  registry_get deviceId = inr obj →
  run (write deviceId objectType objectId resourceId value_) =
    (match transport_send (createUpdateRequest objectType objectId resourceId value_ obj) with
     | inl e => inl e
     | inr res => write_processResponse objectType objectId res
     end,
     [createUpdateRequest objectType objectId resourceId value_ obj]).
Proof.
  intros Hget. unfold run, write, bind, lift, ret, sendRequest.
  rewrite Hget. simpl. now destruct (transport_send _).
Qed.

(** C4 (as amended): once the device resolves and the transport delivers
    a response to the PUT on [/type/instance/resource], code 2.04 yields
    the response payload, code 4.04 yields ObjectNotFound carrying
    [/type/instance] (the object instance, without the resource segment),
    and any other code yields ClientError carrying the received code. *)
Theorem write_response_mapping deviceId objectType objectId resourceId value_ obj res :
  registry_get deviceId = inr obj →
  transport_send (createUpdateRequest objectType objectId resourceId value_ obj) = inr res →
  let op := write deviceId objectType objectId resourceId value_ in
  req_pathname <$> sent_by op =
    ["/" +:+ to_string objectType +:+ "/" +:+ to_string objectId
         +:+ "/" +:+ to_string resourceId] ∧
  (code res = "2.04" → result_of op = inr (payload res)) ∧
  (code res = "4.04" →
     result_of op = inl (ObjectNotFound ("/" +:+ to_string objectType +:+ "/" +:+ to_string objectId))) ∧
  (code res ≠ "2.04" → code res ≠ "4.04" →
     result_of op = inl (ClientError (code res))).
Proof.
  intros Hget Hsend op. unfold result_of, sent_by, op.
  rewrite (write_run _ _ _ _ _ _ Hget), Hsend. simpl.
  unfold write_processResponse.
  split; [reflexivity |].
  split; [| split].
  - intros ->. reflexivity.
  - intros ->. reflexivity.
  - intros H204 H404.
    now rewrite (eqb_false_of_ne _ _ H204), (eqb_false_of_ne _ _ H404).
Qed.

(** *** writeAttributes *)

Lemma indexOf_lower (l : list string) (x : string) : (-1 <= indexOf l x)%Z.
Proof.
  induction l as [|y l IH]; simpl; [lia |].
  destruct (String.eqb y x); [lia |].
  destruct (indexOf l x <? 0)%Z; lia.
Qed.

Lemma indexOf_found (l : list string) (x : string) :
  (0 <=? indexOf l x)%Z = true ↔ x ∈ l.
Proof.
  induction l as [|y l IH]; simpl.
  - split; [discriminate | intros Hin; inversion Hin].
  - destruct (String.eqb_spec y x) as [-> | Hne].
    + split; [intros _; left | reflexivity].
    + rewrite elem_of_cons, <- IH.
      destruct (Z.ltb_spec (indexOf l x) 0) as [Hlt | Hge].
      * split; [discriminate |].
        intros [Heq | Hpos]; [congruence |].
        apply Z.leb_le in Hpos. lia.
      * split; [intros _; right; now apply Z.leb_le |].
        intros _. apply Z.leb_le. lia.
Qed.

Lemma indexOf_missing (l : list string) (x : string) :
  (0 <=? indexOf l x)%Z = false ↔ x ∉ l.
Proof.
  rewrite <- indexOf_found. destruct (0 <=? indexOf l x)%Z; split; congruence.
Qed.

(** The loop of [createQueryParams] under the built-in test: [result]
    grows by the accepted attributes, [errorList] by the rejected names,
    both in enumeration order, and no iteration throws. *)
Lemma queryStep_fold (properties : list Property) (result : string)
    (errorList : list string) :
  fold_left (queryStep (Some BuiltinTest)) properties (Some (result, errorList)) =
    Some (result +:+ juxtaposed (parameter <$>
                   filter (λ p, key p ∈ validAttributes) (ownProperties properties)),
          errorList ++ offendingKeys properties).
Proof.
  revert result errorList.
  induction properties as [|p properties IH]; intros result errorList.
  - simpl. unfold juxtaposed. simpl. now rewrite append_empty_r, app_nil_r.
  - cbn [fold_left]. unfold queryStep at 2. cbn [ownership].
    unfold offendingKeys, ownKeys, ownProperties in *.
    rewrite (filter_cons (λ p, own p = true)).
    destruct (own p) eqn:Hown.
    + rewrite decide_True by reflexivity.
      rewrite fmap_cons, !filter_cons.
      destruct (0 <=? indexOf validAttributes (key p))%Z eqn:Hidx.
      * apply indexOf_found in Hidx.
        rewrite decide_True by exact Hidx.
        rewrite decide_False by (intros Hno; now apply Hno).
        rewrite IH. rewrite fmap_cons. unfold juxtaposed at 2.
        cbn [foldr]. fold (juxtaposed (parameter <$>
          filter (λ p, key p ∈ validAttributes)
                 (filter (λ p, own p = true) properties))).
        unfold parameter at 2. now rewrite !append_assoc.
      * apply indexOf_missing in Hidx.
        rewrite decide_False by exact Hidx.
        rewrite decide_True by exact Hidx.
        rewrite IH. now rewrite <- app_assoc.
    + rewrite decide_False by discriminate.
      apply IH.
Qed.

Lemma createQueryParams_rejects (attributes : AttributeMap) :
  hasOwnPropertyOf attributes = Some BuiltinTest →
  offendingKeys (enumerable attributes) ≠ [] →
  createQueryParams attributes
    = Some (inl (UnsupportedAttributes (offendingKeys (enumerable attributes)))).
Proof.
  intros Htest Hbad. unfold createQueryParams. rewrite Htest, queryStep_fold. simpl.
  destruct (offendingKeys (enumerable attributes)); [congruence | reflexivity].
Qed.

Lemma all_valid_filter (properties : list Property) :
  (∀ k, k ∈ ownKeys properties → k ∈ validAttributes) →
  filter (λ p, key p ∈ validAttributes) (ownProperties properties)
    = ownProperties properties
  ∧ offendingKeys properties = [].
Proof.
  unfold offendingKeys, ownKeys. intros Hall.
  induction (ownProperties properties) as [|p l IH]; [split; reflexivity |].
  rewrite fmap_cons in *.
  assert (Hp : key p ∈ validAttributes) by (apply Hall; left).
  destruct IH as [IH1 IH2]; [intros k Hk; apply Hall; now right |].
  rewrite !filter_cons, decide_True by exact Hp.
  rewrite decide_False by (intros Hno; now apply Hno).
  now rewrite IH1, IH2.
Qed.

Lemma createQueryParams_accepts (attributes : AttributeMap) :
  hasOwnPropertyOf attributes = Some BuiltinTest →
  (∀ k, k ∈ ownKeys (enumerable attributes) → k ∈ validAttributes) →
  createQueryParams attributes = Some (inr (queryString (enumerable attributes))).
Proof.
  intros Htest Hall. destruct (all_valid_filter _ Hall) as [Hkeep Hnone].
  unfold createQueryParams. rewrite Htest, queryStep_fold, Hkeep, Hnone. reflexivity.
Qed.

Lemma offending_exists (properties : list Property) :
  (∃ k, k ∈ ownKeys properties ∧ k ∉ validAttributes) ↔
  offendingKeys properties ≠ [].
Proof.
  unfold offendingKeys. split.
  - intros (k & Hin & Hbad) Hnil.
    exact (filter_nil_not_elem_of _ _ _ Hnil Hbad Hin).
  - intros Hne. destruct (filter _ _) as [|k l] eqn:Hf; [congruence |].
    assert (Hk : k ∈ filter (λ k, k ∉ validAttributes) (ownKeys properties))
      by (rewrite Hf; left).
    apply list_elem_of_filter in Hk. exists k. tauto.
Qed.

(** The pipeline behind [writeAttributes], by what the two parallel tasks
    report. *)
Lemma writeAttributesPipeline_accepted deviceId objectType objectId resourceId obj query :
  registry_get deviceId = inr obj →
  run (writeAttributesPipeline deviceId objectType objectId resourceId (inr query))
    = (match transport_send
               (createWriteAttributesRequest objectType objectId resourceId (obj, query)) with
       | inl e => inl e
       | inr res => generateProcessResponse objectType objectId resourceId "2.04" res
       end,
       [createWriteAttributesRequest objectType objectId resourceId (obj, query)]).
Proof.
  intros Hget. unfold run, writeAttributesPipeline, bind, lift, ret, sendRequest.
  rewrite Hget. unfold async_parallel2.
  destruct registry_get_sync; simpl; now destruct (transport_send _).
Qed.

Lemma writeAttributesPipeline_rejected deviceId objectType objectId resourceId obj error :
  registry_get deviceId = inr obj →
  run (writeAttributesPipeline deviceId objectType objectId resourceId (inl error))
    = (inl error, []).
Proof.
  intros Hget. unfold run, writeAttributesPipeline, bind, lift.
  rewrite Hget. unfold async_parallel2. now destruct registry_get_sync.
Qed.

Lemma writeAttributesPipeline_unresolved deviceId objectType objectId resourceId error query :
  registry_get deviceId = inl error →
  ∃ e, run (writeAttributesPipeline deviceId objectType objectId resourceId query)
       = (inl e, []).
Proof.
  intros Hget. unfold run, writeAttributesPipeline, bind, lift.
  rewrite Hget. unfold async_parallel2.
  destruct registry_get_sync, query; eexists; reflexivity.
Qed.

(** C2 (as amended): for a device the registry resolves and an attribute
    map whose [hasOwnProperty] is the built-in one, the call does not
    throw; with any own key outside the whitelist the callback receives
    UnsupportedAttributes carrying every offending key, in enumeration
    order, and no request is sent; with every own key in the whitelist one
    PUT is sent to port 5683 of the device, its path ending in ['?']
    followed by [name=value&] for each own attribute. *)
Theorem writeAttributes_validation deviceId objectType objectId resourceId
    attributes obj :
  registry_get deviceId = inr obj →
  hasOwnPropertyOf attributes = Some BuiltinTest →
  let call := writeAttributes deviceId objectType objectId resourceId attributes in
  ((∃ k, k ∈ ownKeys (enumerable attributes) ∧ k ∉ validAttributes) →
     delivered call
       = Some (inl (UnsupportedAttributes (offendingKeys (enumerable attributes)))) ∧
     wired call = [] ∧
     threw call = false) ∧
  ((∀ k, k ∈ ownKeys (enumerable attributes) → k ∈ validAttributes) →
     threw call = false ∧
     ∃ target,
       wired call =
         [ {| req_host := address obj; req_port := VNum 5683; req_method := "PUT";
              req_pathname := target +:+ queryString (enumerable attributes);
              req_query := None; req_payload := None; req_options := [];
              req_agent := None |} ]).
Proof.
  intros Hget Htest call. unfold call, writeAttributes. split.
  - intros Hbad%offending_exists.
    rewrite (createQueryParams_rejects _ Htest Hbad).
    rewrite (writeAttributesPipeline_rejected _ _ _ _ _ _ Hget).
    repeat split.
  - intros Hall.
    rewrite (createQueryParams_accepts _ Htest Hall).
    rewrite (writeAttributesPipeline_accepted _ _ _ _ _ _ Hget).
    cbn [threw wired]. split; [reflexivity |].
    unfold createWriteAttributesRequest, plainRequest. cbn [fst snd].
    destruct (truthy objectType && truthy objectId && truthy resourceId);
      [| destruct (truthy objectType && truthy objectId)].
    all: eexists; rewrite <- ?append_assoc; reflexivity.
Qed.

(** *** discover *)



End DeviceManagementProperties.

(** *** execute and remove *)

Section Placeholders.
Import DeviceManagement.

Lemma remove_signals_completion (deviceId objectType objectId : value)
    (callback : JsFunction) :
  remove [deviceId; objectType; objectId; VFun callback] = [Invoked callback [VNull]].
Proof. reflexivity. Qed.

Lemma remove_sends_nothing (arguments : list value) :
  List.filter is_sent (remove arguments) = [].
Proof. unfold remove. now destruct (argument arguments 3). Qed.

Lemma execute_sends_nothing (arguments : list value) :
  List.filter is_sent (execute arguments) = [].
Proof. unfold execute. now destruct (argument arguments 0). Qed.

(** [execute] looks for its callback in the first position only. *)
Lemma execute_callback_first (callback : JsFunction) (others : list value) :
  execute (VFun callback :: others) = [Invoked callback [VNull]].
Proof. reflexivity. Qed.

(** C8: called with the signature of the other operations,
    [execute(deviceId, objectType, objectId, resourceId, callback)]
    applies the device id as if it were the callback: a TypeError is
    thrown and the completion callback is never invoked, whereas
    [remove(deviceId, objectType, objectId, callback)] does invoke it. *)
Theorem execute_uniform_signature_throws :
  execute [VStr "1"; VStr "3"; VStr "0"; VStr "1"; VFun Samples.done]
    = [TypeErrorThrown]
  ∧ remove [VStr "1"; VStr "3"; VStr "0"; VFun Samples.done]
    = [Invoked Samples.done [VNull]].
Proof. split; reflexivity. Qed.

End Placeholders.

(** *** The operations on concrete input *)

Section DeviceManagementExamples.
Import DeviceManagement Spec Samples.

(** C4 (as stated) fails: the write targets [/3/0/1], the device answers
    4.04, and the failure carries [/3/0]. *)
Lemma write_not_found_path_counterexample :
  let op := @write registry (answering notFound)
              (VStr "1") (VStr "3") (VStr "0") (VStr "1") (VStr "on") in
  req_pathname <$> sent_by op = ["/3/0/1"] ∧
  result_of op = inl (ObjectNotFound "/3/0") ∧
  result_of op ≠ inl (ObjectNotFound "/3/0/1").
Proof. repeat split; [reflexivity .. | discriminate]. Qed.

Lemma write_response_mapping_witness :
  let op res := @write registry (answering res)
                  (VStr "1") (VStr "3") (VStr "0") (VStr "1") (VStr "on") in
  result_of (op changed) = inr "" ∧
  result_of (op notFound) = inl (ObjectNotFound "/3/0") ∧
  result_of (op content) = inl (ClientError "2.05") ∧
  req_pathname <$> sent_by (op notFound) = ["/3/0/1"].
Proof.
  pose proof (λ res, @write_response_mapping registry (answering res)
                (VStr "1") (VStr "3") (VStr "0") (VStr "1") (VStr "on")
                (mkDevice "10.0.0.5") res eq_refl eq_refl) as Hmap.
  cbv zeta in Hmap. cbv zeta.
  destruct (Hmap changed) as (_ & Hok & _ & _).
  destruct (Hmap notFound) as (Hsent & _ & Hmissing & _).
  destruct (Hmap content) as (_ & _ & _ & Hother).
  split; [apply Hok; reflexivity |].
  split; [apply Hmissing; reflexivity |].
  split; [apply Hother; discriminate | exact Hsent].
Defined.

(** C2 (as stated) fails: for a device the registry does not know, the
    map with two keys outside the whitelist fails with the lookup error
    instead of UnsupportedAttributes, and the map within the whitelist
    sends no request. *)
Lemma writeAttributes_unknown_device_counterexample :
  let call properties := @writeAttributes registry (answering changed)
                           (VStr "9") (VStr "3") (VStr "0") (VStr "1")
                           (plain properties) in
  (∃ k, k ∈ ownKeys mixed ∧ k ∉ validAttributes) ∧
  delivered (call mixed) = Some (inl (CollaboratorError "device not found")) ∧
  delivered (call mixed) ≠ Some (inl (UnsupportedAttributes ["colour"; "unit"])) ∧
  (∀ k, k ∈ ownKeys accepted → k ∈ validAttributes) ∧
  wired (call accepted) = [].
Proof.
  cbv zeta. split; [| split; [| split; [| split]]].
  - exists "colour". split; [right; left |].
    rewrite <- indexOf_missing. reflexivity.
  - reflexivity.
  - discriminate.
  - intros k Hk. rewrite <- indexOf_found.
    apply elem_of_cons in Hk as [-> | Hk]; [reflexivity |].
    apply list_elem_of_singleton in Hk as ->. reflexivity.
  - reflexivity.
Qed.

Lemma writeAttributes_validation_witness :
  let call properties := @writeAttributes registry (answering changed)
                           (VStr "1") (VStr "3") (VStr "0") (VStr "1")
                           (plain properties) in
  (delivered (call mixed) = Some (inl (UnsupportedAttributes ["colour"; "unit"])) ∧
   wired (call mixed) = [] ∧
   threw (call mixed) = false) ∧
  req_pathname <$> wired (call accepted) = ["/3/0/1?pmin=5&lt=7&"].
Proof.
  pose proof (λ properties, @writeAttributes_validation registry (answering changed)
                (VStr "1") (VStr "3") (VStr "0") (VStr "1") (plain properties)
                (mkDevice "10.0.0.5") eq_refl) as Hval.
  cbv zeta in Hval. cbv zeta. split.
  - apply (proj1 (Hval mixed eq_refl)). exists "colour". split.
    + right. left.
    + rewrite <- indexOf_missing. reflexivity.
  - destruct (proj2 (Hval accepted eq_refl)) as (_ & target & Hsent).
    + intros k Hk. rewrite <- indexOf_found.
      apply elem_of_cons in Hk as [-> | Hk]; [reflexivity |].
      apply list_elem_of_singleton in Hk as ->. reflexivity.
    + reflexivity.
Defined.

Example writeAttributes_rejects_all_offenders :
  @writeAttributes registry (answering changed)
     (VStr "1") (VStr "3") (VStr "0") (VStr "1") (plain mixed)
    = {| delivered := Some (inl (UnsupportedAttributes ["colour"; "unit"]));
         wired := []; threw := false |}.
Proof. reflexivity. Qed.

Example writeAttributes_query :
  req_pathname <$> wired (@writeAttributes registry (answering changed)
         (VStr "1") (VStr "3") (VStr "0") VUndefined
         (plain [mkProperty "gt" (VReal "2.5") true; mkProperty "cancel" (VBool true) true]))
    = ["/3/0?gt=2.5&cancel=true&"].
Proof. reflexivity. Qed.



(** For string components, truthy means non-empty. *)
Lemma truthy_string (s : string) : truthy (VStr s) = true ↔ s ≠ "".
Proof.
  cbn [truthy]. rewrite negb_true_iff. apply String.eqb_neq.
Qed.

(** A numeric instance id [0] is falsy, so the code takes it for a
    missing component: the path stops at the object and the id is taken
    for the callback. *)
Example discover_numeric_zero_instance :
  let d := @discover registry (answering content)
             (VNum 42) (VNum 3) (VNum 0) (VFun done) VUndefined in
  pathname d = "/3" ∧ trueCallback d = VNum 0.
Proof. split; reflexivity. Qed.

End DeviceManagementExamples.

(** ** Request router *)

Section RouterProperties.
Import CoapRouter Spec.
Context `{!UrlModule}.

Lemma routeMatches_test (route : Route) (method path : string) :
  routeMatches route method path ↔
  String.eqb method (route_method route) && route_pattern route path = true.
Proof.
  unfold routeMatches. rewrite andb_true_iff, String.eqb_eq. reflexivity.
Qed.

(** Routes that do not match are passed over. *)
Lemma scanRoutes_skip table req path res (earlier rest : list Route) :
  (∀ r, r ∈ earlier → ¬ routeMatches r (in_method req) path) →
  scanRoutes table req (Some path) res (earlier ++ rest)
    = scanRoutes table req (Some path) res rest.
Proof.
  induction earlier as [|r earlier IH]; intros Hnone; [reflexivity |].
  cbn [app scanRoutes].
  assert (Hr : ¬ routeMatches r (in_method req) path) by (apply Hnone; left).
  rewrite routeMatches_test in Hr. apply not_true_is_false in Hr.
  rewrite IH by (intros r' Hr'; apply Hnone; now right).
  destruct (String.eqb (in_method req) (route_method r)); [| reflexivity].
  simpl in Hr. now rewrite Hr.
Qed.

(** C3: with the request path parsed, the first route (in table order)
    whose method equals the request method and whose pattern matches the
    path has its handler pair invoked once as [lib(req, res, user)], and
    the routes after it are not consulted; when no route matches, the
    response gets code 4.04 and an empty body and no handler runs. *)
Theorem dataHandler_dispatch serverInfo req res path :
  url_pathname (url_parse (in_url req)) = Some path →
  let parsed := mkIncoming (in_method req) (in_url req)
                  (Some (url_parse (in_url req))) in
  (∀ table earlier route later entry,
     handlers serverInfo = Some table →
     routes serverInfo = earlier ++ route :: later →
     (∀ r, r ∈ earlier → ¬ routeMatches r (in_method req) path) →
     routeMatches route (in_method req) path →
     table !! route_operation route = Some entry →
     dataHandler serverInfo req res
       = Completed [mkLibCall (lib entry) parsed res (user entry)] res) ∧
  ((∀ r, r ∈ routes serverInfo → ¬ routeMatches r (in_method req) path) →
     dataHandler serverInfo req res
       = Completed [] {| res_code := "4.04"; res_body := Some "" |}).
Proof.
  intros Hpath parsed. unfold dataHandler. rewrite Hpath. fold parsed. split.
  - intros table earlier route later entry Htable Hroutes Hearlier Hmatch Hentry.
    rewrite Htable, Hroutes, scanRoutes_skip by exact Hearlier.
    apply routeMatches_test, andb_true_iff in Hmatch as [Hmethod Hpattern].
    cbn [scanRoutes]. cbn [in_method parsed]. rewrite Hmethod, Hpattern, Hentry.
    reflexivity.
  - intros Hnone.
    rewrite <- (app_nil_r (routes serverInfo)), scanRoutes_skip by exact Hnone.
    reflexivity.
Qed.

End RouterProperties.

(** ** Registration lifecycle *)

Section ClientProperties.
Import CoapRouter Client Spec.
Context `{!Config, !ObjectRegistry}.

(** The loop over the options leaves the value of the last Location-Path
    option in [location], or leaves it alone when there is none. *)
Lemma recordLocation_last (opts : list CoapOption) (di : DeviceInformation) :
  location (recordLocation di opts)
    = default (location di) (lastLocationPath opts).
Proof.
  unfold recordLocation, lastLocationPath.
  induction opts as [|o opts IH] using rev_ind; [reflexivity |].
  rewrite fold_left_app, filter_app. cbn [fold_left].
  rewrite filter_cons, filter_nil.
  destruct (String.eqb_spec (opt_name o) "Location-Path") as [Hname | Hname].
  - rewrite decide_True by exact Hname. now rewrite last_snoc.
  - rewrite decide_False by exact Hname. now rewrite app_nil_r.
Qed.

Lemma recordLocation_frame (opts : list CoapOption) (di : DeviceInformation) :
  currentHost (recordLocation di opts) = currentHost di ∧
  currentPort (recordLocation di opts) = currentPort di ∧
  serverInfo (recordLocation di opts) = serverInfo di.
Proof.
  unfold recordLocation. revert di.
  induction opts as [|o opts IH]; intros di; [repeat split |].
  cbn [fold_left]. destruct (String.eqb (opt_name o) "Location-Path").
  - destruct (IH (set_location di (opt_value o))) as (? & ? & ?). now repeat split.
  - apply IH.
Qed.

Lemma callbacks_app (l1 l2 : list Effect) :
  callbacks (l1 ++ l2) = callbacks l1 ++ callbacks l2.
Proof. unfold callbacks. apply flat_map_app. Qed.

Lemma router_stops_app (l1 l2 : list Effect) :
  router_stops (l1 ++ l2) = router_stops l1 ++ router_stops l2.
Proof. unfold router_stops. apply flat_map_app. Qed.

Lemma sendObjects_quiet (req : Request) :
  callbacks (sendObjects req) = [] ∧ router_stops (sendObjects req) = [].
Proof. unfold sendObjects. now destruct objRegistry_list. Qed.

(** A 2.01 response to a registration whose listener is up. *)
Lemma onResponse_created (r : Registration) (di : DeviceInformation) (res : Response) :
  deviceInformation r = Some di →
  code res = "2.01" →
  deviceInformation (onResponse r res) = Some (recordLocation di (options res)) ∧
  errorEmitted (onResponse r res) = errorEmitted r ∧
  effects (onResponse r res)
    = effects r ++ [Callback (inr (recordLocation di (options res)))].
Proof.
  intros Hdi Hcode. unfold onResponse, createRegisterResponseHandler.
  rewrite Hdi, Hcode. repeat split.
Qed.

Lemma onResponse_rejected (r : Registration) (res : Response) :
  code res ≠ "2.01" →
  deviceInformation (onResponse r res) = deviceInformation r ∧
  errorEmitted (onResponse r res) = errorEmitted r ∧
  effects (onResponse r res)
    = effects r ++ [Callback (inl (RegistrationFailed (code res)))].
Proof.
  intros Hcode. unfold onResponse, createRegisterResponseHandler.
  rewrite (eqb_false_of_ne _ _ Hcode). repeat split.
Qed.

(** C1 (as amended): when the last Location-Path option of a 2.01
    response has value [V], the device information handed to the
    callback has [location = V], and the update and unregister requests
    built from it have [V] as their pathname. *)
Theorem registration_roundtrip (r : Registration) (di : DeviceInformation)
    (res : Response) (V : string) :
  deviceInformation r = Some di →
  code res = "2.01" →
  lastLocationPath (options res) = Some V →
  ∃ di',
    callbacks (effects (onResponse r res)) = callbacks (effects r) ++ [inr di'] ∧
    deviceInformation (onResponse r res) = Some di' ∧
    location di' = V ∧
    req_pathname (ex_request (updateRegistration di')) = V ∧
    req_pathname (ex_request (unregister di')) = V.
Proof.
  intros Hdi Hcode Hlast.
  destruct (onResponse_created r di res Hdi Hcode) as (Hdi' & _ & Heff).
  exists (recordLocation di (options res)).
  rewrite Heff, callbacks_app, Hdi'.
  assert (Hloc : location (recordLocation di (options res)) = V)
    by (now rewrite recordLocation_last, Hlast).
  repeat split; assumption.
Qed.

(** C9: on the first 2.01 response to a registration, the callback
    reports success with the device information whose location is the
    value of the last Location-Path option of the response, and the
    empty string when the response carries no such option. *)
Theorem last_location_path_wins host port url endpointName started res :
  code res = "2.01" →
  let r := onResponse (register host port url endpointName (None, started)) res in
  ∃ di',
    callbacks (effects r) = [inr di'] ∧
    deviceInformation r = Some di' ∧
    (∀ V, lastLocationPath (options res) = Some V → location di' = V) ∧
    (lastLocationPath (options res) = None → location di' = "").
Proof.
  intros Hcode r.
  destruct (onResponse_created (register host port url endpointName (None, started))
              _ res eq_refl Hcode) as (Hdi' & _ & Heff).
  eexists. unfold r. rewrite Heff, callbacks_app, Hdi'.
  cbn [effects register]. rewrite (proj1 (sendObjects_quiet _)).
  split; [reflexivity |]. split; [reflexivity |].
  rewrite recordLocation_last.
  split; [intros V -> | intros ->]; reflexivity.
Qed.

(** *** Error events *)

Lemma onError_first (r : Registration) (di : DeviceInformation) :
  deviceInformation r = Some di →
  errorEmitted r = false →
  deviceInformation (onError r) = Some di ∧
  errorEmitted (onError r) = true ∧
  creationRequest (onError r) = creationRequest r ∧
  effects (onError r)
    = effects r ++ [RouterStop (serverInfo di) LogStopResult;
                    Callback (inl (ServerNotFound
                      (req_host (creationRequest r) +:+ ":"
                         +:+ to_string (req_port (creationRequest r)))))].
Proof.
  intros Hdi Hflag. unfold onError. rewrite Hdi, Hflag. cbn.
  repeat split. now rewrite <- app_assoc.
Qed.

Lemma onError_again (r : Registration) (di : DeviceInformation) :
  deviceInformation r = Some di →
  errorEmitted r = true →
  deviceInformation (onError r) = Some di ∧
  errorEmitted (onError r) = true ∧
  effects (onError r) = effects r ++ [RouterStop (serverInfo di) LogStopResult].
Proof.
  intros Hdi Hflag. unfold onError. rewrite Hdi, Hflag. cbn. repeat split.
Qed.

Lemma register_quiet host port url endpointName start :
  callbacks (effects (register host port url endpointName start)) = [] ∧
  router_stops (effects (register host port url endpointName start)) = [].
Proof. cbn [effects register]. apply sendObjects_quiet. Qed.

Lemma register_peer host port url endpointName start :
  req_host (creationRequest (register host port url endpointName start)) = host ∧
  req_port (creationRequest (register host port url endpointName start)) = port.
Proof. split; reflexivity. Qed.

(** C5: two consecutive error events on one registration request invoke
    the completion callback once, with ServerNotFound for [host:port],
    and each of them stops the router that [register] started. *)
Theorem transport_error_reported_once host port url endpointName started e1 e2 :
  let r := deliverAll (register host port url endpointName (None, started))
             [ErrorEvent e1; ErrorEvent e2] in
  callbacks (effects r) = [inl (ServerNotFound (host +:+ ":" +:+ to_string port))] ∧
  server <$> router_stops (effects r) = [server started; server started].
Proof.
  intros r. unfold r, deliverAll. cbn [fold_left deliver].
  set (r0 := register host port url endpointName (None, started)).
  destruct (onError_first r0 _ eq_refl eq_refl) as (Hdi1 & Hflag1 & _ & Heff1).
  destruct (onError_again (onError r0) _ Hdi1 Hflag1) as (_ & _ & Heff2).
  rewrite Heff2, Heff1, !callbacks_app, !router_stops_app. subst r0.
  destruct (register_quiet host port url endpointName (None, started)) as [-> ->].
  destruct (register_peer host port url endpointName (None, started)) as [-> ->].
  split; reflexivity.
Qed.

(** C10: an error event followed by a response event invokes the
    completion callback twice: first with ServerNotFound, then with what
    the response handler reports (success on 2.01, RegistrationFailed
    otherwise); the response handler leaves the duplicate-delivery flag
    as the error handler set it. *)
Theorem response_after_error_calls_back_again host port url endpointName started e res :
  let r := deliverAll (register host port url endpointName (None, started))
             [ErrorEvent e; ResponseEvent res] in
  ∃ second,
    callbacks (effects r)
      = [inl (ServerNotFound (host +:+ ":" +:+ to_string port)); second] ∧
    (code res = "2.01" → ∃ di', second = inr di') ∧
    (code res ≠ "2.01" → second = inl (RegistrationFailed (code res))) ∧
    errorEmitted r = true.
Proof.
  intros r. unfold r, deliverAll. cbn [fold_left deliver].
  set (r0 := register host port url endpointName (None, started)).
  destruct (onError_first r0 _ eq_refl eq_refl) as (Hdi1 & Hflag1 & _ & Heff1).
  assert (Hquiet : callbacks (effects r0) = []) by apply register_quiet.
  destruct (register_peer host port url endpointName (None, started))
    as [Hhost Hport].
  fold r0 in Hhost, Hport. rewrite Hhost, Hport in Heff1. clear Hhost Hport.
  destruct (String.eqb_spec (code res) "2.01") as [Hcode | Hcode].
  - destruct (onResponse_created (onError r0) _ res Hdi1 Hcode) as (_ & Hflag & Heff).
    eexists. rewrite Heff, Heff1, !callbacks_app, Hquiet, Hflag, Hflag1.
    split; [reflexivity |]. split; [eauto |]. split; [congruence | reflexivity].
  - destruct (onResponse_rejected (onError r0) res Hcode) as (_ & Hflag & Heff).
    eexists. rewrite Heff, Heff1, !callbacks_app, Hquiet, Hflag, Hflag1.
    split; [reflexivity |]. split; [congruence |]. split; reflexivity.
Qed.

(** *** update *)

(** C7: with the object listing at hand, [update] pipes the listing into
    a PUT on the recorded location with the lifetime, version and binding
    query; whatever the code of the response, the callback is then
    invoked with no error and with the device information as it was
    given, no field changed. *)
Theorem update_reports_success (di : DeviceInformation) (objects : list LwObject)
    (res : Response) :
  objRegistry_list = inr objects →
  let request :=
    {| req_host := currentHost di; req_port := currentPort di;
       req_method := "PUT"; req_pathname := location di;
       req_query := Some ("lt=" +:+ to_string (lifetime client)
                            +:+ "&lwm2m=" +:+ to_string (version client) +:+ "&b=U");
       req_payload := None; req_options := []; req_agent := None |} in
  let x := update_onResponse (updateRegistration di) res in
  ex_effects x = [Piped request (generatePayload objects); Callback (inr di)] ∧
  ex_deviceInformation x = di.
Proof.
  intros Hlist request x. unfold x, update_onResponse, updateRegistration, sendObjects.
  rewrite Hlist. split; reflexivity.
Qed.

End ClientProperties.

(** ** The router and the lifecycle on concrete input *)

Section LifecycleExamples.
Import CoapRouter Client Spec Samples.

Lemma dataHandler_dispatch_witness :
  @dataHandler urls listening (mkIncoming "GET" "/3/0/1?pmin=2" None) untouched
    = Completed [mkLibCall ReadHandle
                   (mkIncoming "GET" "/3/0/1?pmin=2" (Some (mkUrl (Some "/3/0/1"))))
                   untouched DefaultHandler] untouched
  ∧ @dataHandler urls listening (mkIncoming "DELETE" "/3/0" None) untouched
    = Completed [] {| res_code := "4.04"; res_body := Some "" |}.
Proof.
  split.
  - apply (proj1 (@dataHandler_dispatch urls listening
                    (mkIncoming "GET" "/3/0/1?pmin=2" None) untouched "/3/0/1" eq_refl)
             _ [mkRoute "PUT" lwm2m_path_pattern "write"]
               (mkRoute "GET" lwm2m_path_pattern "read") []
               (mkHandlerPair ReadHandle DefaultHandler) eq_refl eq_refl).
    + intros r Hr%list_elem_of_singleton [Hmethod _]. subst r. discriminate.
    + split; reflexivity.
    + cbn [route_operation]. rewrite lookup_insert_ne by discriminate.
      apply lookup_insert_eq.
  - apply (proj2 (@dataHandler_dispatch urls listening
                    (mkIncoming "DELETE" "/3/0" None) untouched "/3/0" eq_refl)).
    intros r Hr [Hmethod _].
    apply elem_of_cons in Hr as [-> | Hr]; [discriminate |].
    apply list_elem_of_singleton in Hr as ->. discriminate.
Defined.

(** C1 (as stated) fails: the response carries a Location-Path option
    whose value is [/rd/1], and the recorded location is [/rd/2]. *)
Lemma registration_roundtrip_counterexample :
  let res := created [mkOption "Location-Path" "/rd/1";
                      mkOption "Location-Path" "/rd/2"] in
  let r := onResponse (@register config objects "localhost" (VStr "5683")
                         VUndefined "robot1" (None, fresh)) res in
  code res = "2.01" ∧
  mkOption "Location-Path" "/rd/1" ∈ options res ∧
  location <$> deviceInformation r = Some "/rd/2" ∧
  location <$> deviceInformation r ≠ Some "/rd/1" ∧
  (req_pathname ∘ ex_request ∘ @updateRegistration config objects)
    <$> deviceInformation r ≠ Some "/rd/1".
Proof.
  repeat split; try reflexivity; try discriminate. left.
Qed.

Lemma registration_roundtrip_witness :
  let res := created [mkOption "Content-Format" "40";
                      mkOption "Location-Path" "/rd/136"] in
  let r := @register config objects "localhost" (VStr "5683")
             VUndefined "robot1" (None, fresh) in
  ∃ di',
    callbacks (effects (onResponse r res)) = callbacks (effects r) ++ [inr di'] ∧
    deviceInformation (onResponse r res) = Some di' ∧
    location di' = "/rd/136" ∧
    req_pathname (ex_request (@updateRegistration config objects di')) = "/rd/136" ∧
    req_pathname (ex_request (unregister di')) = "/rd/136".
Proof.
  eapply (@registration_roundtrip config objects); reflexivity.
Defined.

Lemma last_location_path_wins_witness :
  let after opts :=
    onResponse (@register config objects "localhost" (VStr "5683")
                  VUndefined "robot1" (None, fresh)) (created opts) in
  (∃ di', callbacks (effects (after [mkOption "Location-Path" "/rd/1";
                                     mkOption "Location-Path" "/rd/2"])) = [inr di']
          ∧ location di' = "/rd/2") ∧
  (∃ di', callbacks (effects (after [mkOption "Content-Format" "40"])) = [inr di']
          ∧ location di' = "").
Proof.
  pose proof (λ opts, @last_location_path_wins config objects "localhost" (VStr "5683")
                VUndefined "robot1" fresh (created opts) eq_refl) as Hlast.
  cbv zeta in Hlast. cbv zeta. split.
  - destruct (Hlast [mkOption "Location-Path" "/rd/1"; mkOption "Location-Path" "/rd/2"])
      as (di' & Hcalls & _ & Hsome & _).
    exists di'. split; [exact Hcalls | apply Hsome; reflexivity].
  - destruct (Hlast [mkOption "Content-Format" "40"]) as (di' & Hcalls & _ & _ & Hnone).
    exists di'. split; [exact Hcalls | apply Hnone; reflexivity].
Defined.

Example no_location_path_keeps_empty_location :
  let r := onResponse (@register config objects "localhost" (VStr "5683")
                         VUndefined "robot1" (None, fresh)) (created []) in
  location <$> deviceInformation r = Some "" ∧ length (callbacks (effects r)) = 1.
Proof. split; reflexivity. Qed.

Lemma response_after_error_calls_back_again_witness :
  let after res :=
    effects (deliverAll (@register config objects "localhost" (VStr "5683")
                           VUndefined "robot1" (None, fresh))
               [ErrorEvent "ECONNREFUSED"; ResponseEvent res]) in
  (∃ di', callbacks (after (created [mkOption "Location-Path" "/rd/136"]))
            = [inl (ServerNotFound "localhost:5683"); inr di']) ∧
  callbacks (after notFound)
    = [inl (ServerNotFound "localhost:5683"); inl (RegistrationFailed "4.04")].
Proof.
  pose proof (@response_after_error_calls_back_again config objects "localhost"
                (VStr "5683") VUndefined "robot1" fresh "ECONNREFUSED") as Hagain.
  cbv zeta in Hagain. cbv zeta. split.
  - destruct (Hagain (created [mkOption "Location-Path" "/rd/136"]))
      as (second & Hcalls & Hcreated & _).
    destruct (Hcreated eq_refl) as [di' ->]. exists di'. exact Hcalls.
  - destruct (Hagain notFound) as (second & Hcalls & _ & Hrejected & _).
    rewrite (Hrejected ltac:(discriminate)) in Hcalls. exact Hcalls.
Defined.

Example two_errors_one_callback :
  let r := deliverAll (@register config objects "localhost" (VStr "5683")
                         VUndefined "robot1" (None, fresh))
             [ErrorEvent "ECONNREFUSED"; ErrorEvent "ECONNREFUSED"] in
  callbacks (effects r) = [inl (ServerNotFound "localhost:5683")] ∧
  length (router_stops (effects r)) = 2.
Proof. split; reflexivity. Qed.

Lemma update_reports_success_witness :
  let request :=
    {| req_host := "localhost"; req_port := VStr "5683";
       req_method := "PUT"; req_pathname := "/rd/136";
       req_query := Some "lt=85671&lwm2m=1.0&b=U";
       req_payload := None; req_options := []; req_agent := None |} in
  let x := update_onResponse (@updateRegistration config objects registered) notFound in
  ex_effects x = [Piped request "</1/2>,</3/4>"; Callback (inr registered)] ∧
  ex_deviceInformation x = registered.
Proof.
  apply (@update_reports_success config objects registered
           [mkObject "/1/2"; mkObject "/3/4"] notFound).
  reflexivity.
Defined.

End LifecycleExamples.

(** * Further properties of the code *)

(** ** Device-management pipelines under failure *)

Section PipelineFailures.
Import DeviceManagement Spec.
Context `{!DeviceRegistry, !CoapUtils}.

(** X1: when the registry does not know the device, [read], [write] and
    [create] hand the lookup error to their callback and [discover] hands
    it to its pipeline; none of them, nor [writeAttributes], puts a request
    on the wire. *)
Theorem lookup_failure_sends_nothing deviceId objectType objectId resourceId
    value_ fullCallback attributes error :
  registry_get deviceId = inl error →
  run (read deviceId objectType objectId resourceId) = (inl error, []) ∧
  run (write deviceId objectType objectId resourceId value_) = (inl error, []) ∧
  run (create deviceId objectType objectId) = (inl error, []) ∧
  (∀ p, started (discover deviceId objectType objectId resourceId fullCallback) = Some p →
        run p = (inl error, [])) ∧
  wired (writeAttributes deviceId objectType objectId resourceId attributes) = [] ∧
  ∃ e, delivered (writeAttributes deviceId objectType objectId resourceId attributes)
       = Some (inl e).
Proof.
  intros Hget.
  split; [| split; [| split; [| split; [| split]]]].
  - unfold run, read, bind, lift. now rewrite Hget.
  - unfold run, write, bind, lift. now rewrite Hget.
  - unfold run, create, bind, lift. now rewrite Hget.
  - intros p. unfold discover.
    destruct (truthy objectId && truthy resourceId && truthy fullCallback);
      [| destruct (truthy objectId && truthy resourceId)];
      cbn [started];
      (destruct (negb (truthy objectType) && negb (truthy objectId)
                   && negb (truthy resourceId)); [discriminate |]);
      intros [= <-]; unfold run, bind, lift; now rewrite Hget.
  - unfold writeAttributes. destruct (createQueryParams attributes) as [query |].
    + destruct (writeAttributesPipeline_unresolved deviceId objectType objectId
                  resourceId error query Hget) as [e ->]. reflexivity.
    + reflexivity.
  - unfold writeAttributes. destruct (createQueryParams attributes) as [query |].
    + destruct (writeAttributesPipeline_unresolved deviceId objectType objectId
                  resourceId error query Hget) as [e ->]. now exists e.
    + rewrite Hget. now exists error.
Qed.

(** X2: when the device resolves and the transport fails, [read], [write]
    and [create] have sent exactly their one request and hand the transport
    error to the callback; the response interpreter is not consulted. *)
Theorem transport_failure_propagates deviceId objectType objectId resourceId
    value_ obj error :
  registry_get deviceId = inr obj →
  (∀ request, transport_send request = inl error) →
  run (read deviceId objectType objectId resourceId)
    = (inl error,
       [plainRequest (address obj) "GET"
          ("/" +:+ to_string objectType +:+ "/" +:+ to_string objectId
               +:+ "/" +:+ to_string resourceId)]) ∧
  run (write deviceId objectType objectId resourceId value_)
    = (inl error, [createUpdateRequest objectType objectId resourceId value_ obj]) ∧
  run (create deviceId objectType objectId)
    = (inl error,
       [plainRequest (address obj) "POST"
          ("/" +:+ to_string objectType +:+ "/" +:+ to_string objectId)]).
Proof.
  intros Hget Hdown. unfold run, read, write, create, bind, lift, ret, sendRequest.
  rewrite Hget. cbn [app]. rewrite !Hdown. repeat split.
Qed.

(** X3: on a resolved device, [read] sends one GET on
    [/type/instance/resource] and [create] one POST on [/type/instance],
    both to port 5683 of the registered address and without payload, query
    or options; what reaches the callback is the shared response
    interpreter applied to the response, expecting 2.05 for [read] and 2.01
    (with a null resource) for [create]. *)
Theorem read_create_exchange deviceId objectType objectId resourceId obj
    (answer : Request → Response) :
  registry_get deviceId = inr obj →
  (∀ request, transport_send request = inr (answer request)) →
  let get := {| req_host := address obj; req_port := VNum 5683; req_method := "GET";
                req_pathname := "/" +:+ to_string objectType +:+ "/"
                                    +:+ to_string objectId +:+ "/"
                                    +:+ to_string resourceId;
                req_query := None; req_payload := None; req_options := [];
                req_agent := None |} in
  let post := {| req_host := address obj; req_port := VNum 5683; req_method := "POST";
                 req_pathname := "/" +:+ to_string objectType +:+ "/"
                                     +:+ to_string objectId;
                 req_query := None; req_payload := None; req_options := [];
                 req_agent := None |} in
  run (read deviceId objectType objectId resourceId)
    = (generateProcessResponse objectType objectId resourceId "2.05" (answer get), [get]) ∧
  run (create deviceId objectType objectId)
    = (generateProcessResponse objectType objectId VNull "2.01" (answer post), [post]).
Proof.
  intros Hget Hup get post. unfold run, read, create, bind, lift, ret, sendRequest.
  rewrite Hget. cbn [app]. rewrite !Hup. split; reflexivity.
Qed.

(** *** writeAttributes *)

(** Under the built-in test the outcome of [createQueryParams] is a
    function of the own properties. *)
Lemma createQueryParams_builtin (attributes : AttributeMap) :
  hasOwnPropertyOf attributes = Some BuiltinTest →
  createQueryParams attributes
    = Some (if negb (Nat.eqb (length (offendingKeys (enumerable attributes))) 0)
            then inl (UnsupportedAttributes (offendingKeys (enumerable attributes)))
            else inr ("?" +:+ juxtaposed (parameter <$>
                        filter (λ p, key p ∈ validAttributes)
                               (ownProperties (enumerable attributes))))).
Proof.
  intros Htest. unfold createQueryParams. now rewrite Htest, queryStep_fold.
Qed.

(** X4: as long as [hasOwnProperty] is the built-in one, enumerable
    properties that are not the map's own take no part in
    [createQueryParams]: two maps with the same own properties get the
    same answer, whatever else they inherit, and a map with no own
    property gets the bare ['?']. *)
Theorem inherited_properties_ignored (attributes other : AttributeMap) :
  hasOwnPropertyOf attributes = Some BuiltinTest →
  (hasOwnPropertyOf other = Some BuiltinTest →
   ownProperties (enumerable other) = ownProperties (enumerable attributes) →
   createQueryParams other = createQueryParams attributes) ∧
  (ownProperties (enumerable attributes) = [] →
   createQueryParams attributes = Some (inr "?")).
Proof.
  intros Htest. split.
  - intros Htest' Hsame.
    rewrite (createQueryParams_builtin _ Htest), (createQueryParams_builtin _ Htest').
    unfold offendingKeys, ownKeys. now rewrite Hsame.
  - intros Hnone. rewrite (createQueryParams_builtin _ Htest).
    unfold offendingKeys, ownKeys. now rewrite Hnone.
Qed.

Lemma queryStep_thrown (test : option OwnershipTest) (properties : list Property) :
  fold_left (queryStep test) properties None = None.
Proof. induction properties as [|p properties IH]; [reflexivity | exact IH]. Qed.

(** X22: when what [attributes.hasOwnProperty] evaluates to is not a
    function (the map has no prototype, or carries an enumerable property
    of that name with a value that is not a function) and the map has at
    least one enumerable property, [writeAttributes] throws at the first
    iteration: nothing is sent, and the callback is invoked only if the
    device lookup fails, then with the lookup error; a map without any
    enumerable property never reaches the test and gets the bare ['?']. *)
Theorem writeAttributes_without_test_throws deviceId objectType objectId resourceId
    attributes :
  hasOwnPropertyOf attributes = None →
  let call := writeAttributes deviceId objectType objectId resourceId attributes in
  (enumerable attributes ≠ [] →
     threw call = true ∧ wired call = [] ∧
     delivered call = match registry_get deviceId with
                      | inl error => Some (inl error)
                      | inr _ => None
                      end) ∧
  (enumerable attributes = [] →
     threw call = false ∧ createQueryParams attributes = Some (inr "?")).
Proof.
  intros Htest call. unfold call, writeAttributes, createQueryParams. rewrite Htest.
  split.
  - destruct (enumerable attributes) as [|p rest]; [congruence |]. intros _.
    cbn [fold_left queryStep ownership]. rewrite queryStep_thrown. repeat split.
  - intros ->. cbn [fold_left length Nat.eqb negb].
    destruct (run _). split; reflexivity.
Qed.

Lemma writeAttributes_accepted_sent deviceId objectType objectId resourceId
    attributes obj :
  registry_get deviceId = inr obj →
  hasOwnPropertyOf attributes = Some BuiltinTest →
  (∀ k, k ∈ ownKeys (enumerable attributes) → k ∈ validAttributes) →
  wired (writeAttributes deviceId objectType objectId resourceId attributes)
    = [createWriteAttributesRequest objectType objectId resourceId
         (obj, queryString (enumerable attributes))].
Proof.
  intros Hget Htest Hall. unfold writeAttributes.
  rewrite (createQueryParams_accepts _ Htest Hall).
  now rewrite (writeAttributesPipeline_accepted _ _ _ _ _ _ Hget).
Qed.

(** X5: the path of a [writeAttributes] request follows the truthiness of
    the address components from the left: all three give
    [/type/instance/resource], type and instance with a falsy resource give
    [/type/instance], and a falsy instance gives [/type] even when a
    resource was supplied; the query string follows directly. *)
Theorem writeAttributes_path_depth deviceId objectType objectId resourceId
    attributes obj :
  registry_get deviceId = inr obj →
  hasOwnPropertyOf attributes = Some BuiltinTest →
  (∀ k, k ∈ ownKeys (enumerable attributes) → k ∈ validAttributes) →
  truthy objectType = true →
  let path := req_pathname <$>
    wired (writeAttributes deviceId objectType objectId resourceId attributes) in
  (truthy objectId = true → truthy resourceId = true →
     path = ["/" +:+ to_string objectType +:+ "/" +:+ to_string objectId
                 +:+ "/" +:+ to_string resourceId
                 +:+ queryString (enumerable attributes)]) ∧
  (truthy objectId = true → truthy resourceId = false →
     path = ["/" +:+ to_string objectType +:+ "/" +:+ to_string objectId
                 +:+ queryString (enumerable attributes)]) ∧
  (truthy objectId = false →
     path = ["/" +:+ to_string objectType +:+ queryString (enumerable attributes)]).
Proof.
  intros Hget Htest Hall Htype path. unfold path.
  rewrite (writeAttributes_accepted_sent _ _ _ _ _ _ Hget Htest Hall).
  unfold createWriteAttributesRequest. cbn [fmap list_fmap req_pathname plainRequest snd].
  rewrite Htype. split; [| split].
  - intros -> ->. reflexivity.
  - intros -> ->. reflexivity.
  - intros ->. reflexivity.
Qed.

(** *** discover *)

(** X6: [discover] starts its pipeline unless the object type, the
    instance and the resource arguments are all falsy; in that case it
    only logs: nothing is sent and no callback is kept for a result, even
    when a function was passed as fifth argument. *)
Theorem discover_without_address_is_silent deviceId objectType objectId resourceId
    fullCallback :
  (started (discover deviceId objectType objectId resourceId fullCallback) = None ↔
   truthy objectType = false ∧ truthy objectId = false ∧ truthy resourceId = false) ∧
  (truthy objectType = false → truthy objectId = false → truthy resourceId = false →
   discovery_sent (discover deviceId objectType objectId resourceId fullCallback) = [] ∧
   is_function (trueCallback
                  (discover deviceId objectType objectId resourceId fullCallback)) = false).
Proof.
  split.
  - unfold discover.
    destruct (truthy objectId && truthy resourceId && truthy fullCallback);
      [| destruct (truthy objectId && truthy resourceId)];
      cbn [started];
      destruct (truthy objectType), (truthy objectId), (truthy resourceId);
      cbn [negb andb]; split; try discriminate; try tauto;
      intros (? & ? & ?); discriminate.
  - intros Htype Hid Hres. unfold discovery_sent, discover.
    rewrite Htype, Hid, Hres. cbn [andb negb started trueCallback]. split; [reflexivity |].
    destruct objectId; try reflexivity. discriminate.
Qed.

End PipelineFailures.

(** ** The router beyond dispatch *)

Section RouterExtras.
Import DeviceManagement CoapRouter Client Spec.
Context `{!UrlModule}.

Lemma defaultHandler_scan (arguments : list value) (callback : value) :
  (∀ v, v ∈ arguments → is_function v = false) →
  fold_left (fun callback a => if is_function a then a else callback) arguments callback
    = callback.
Proof.
  revert callback. induction arguments as [|a arguments IH]; intros callback Hnone;
    [reflexivity |].
  cbn [fold_left]. rewrite (Hnone a) by left.
  apply IH. intros v Hv. apply Hnone. now right.
Qed.

(** X7: [defaultHandler] calls, with no arguments, the last function among
    its arguments, wherever it stands and whatever surrounds it; called
    without any function it throws instead of completing. *)
Theorem defaultHandler_last_function (before after : list value) (f : JsFunction) :
  (∀ v, v ∈ after → is_function v = false) →
  defaultHandler (before ++ VFun f :: after) = Invoked f [] ∧
  defaultHandler after = TypeErrorThrown.
Proof.
  intros Hnone. unfold defaultHandler. split.
  - rewrite fold_left_app. cbn [fold_left is_function].
    now rewrite defaultHandler_scan.
  - now rewrite defaultHandler_scan.
Qed.

(** X8: a successful [setHandler] replaces the user handler of the named
    operation and nothing else: the library handler of that operation, the
    pairs of all other operations, the routes and the server are as
    before. *)
Theorem setHandler_replaces_user serverInfo type handler table entry :
  handlers serverInfo = Some table →
  table !! type = Some entry →
  ∃ serverInfo' table',
    setHandler serverInfo type handler = Some serverInfo' ∧
    handlers serverInfo' = Some table' ∧
    table' !! type = Some (mkHandlerPair (lib entry) handler) ∧
    (∀ other, other ≠ type → table' !! other = table !! other) ∧
    routes serverInfo' = routes serverInfo ∧
    server serverInfo' = server serverInfo.
Proof.
  intros Htable Hentry. unfold setHandler. rewrite Htable, Hentry.
  eexists _, _. split; [reflexivity |]. split; [reflexivity |].
  split; [apply lookup_insert_eq |].
  split; [| split; reflexivity].
  intros other Hother. now apply lookup_insert_ne.
Qed.

Lemma inherited_name_test (type : string) :
  existsb (String.eqb type) inheritedNames = true ↔ type ∈ inheritedNames.
Proof.
  rewrite existsb_exists, list_elem_of_In. split.
  - intros (name & Hin & Heq%String.eqb_eq). now subst name.
  - intros Hin. exists type. split; [exact Hin | apply String.eqb_refl].
Qed.

(** X9: [setHandler] throws (returns nothing) exactly when the handler
    table is still [null], or has no slot for the operation and the name
    is not one a plain object inherits from [Object.prototype]; under an
    inherited name ([constructor], [toString], ...) that is not a slot it
    does not throw and installs nothing: the server information is as
    before.  It always throws on the server information [startCoap] hands
    out, before the handlers are loaded. *)
Theorem setHandler_needs_slot serverInfo type handler :
  (setHandler serverInfo type handler = None ↔
   handlers serverInfo = None ∨
   ∃ table, handlers serverInfo = Some table ∧ table !! type = None ∧
            type ∉ inheritedNames) ∧
  (∀ table, handlers serverInfo = Some table → table !! type = None →
            type ∈ inheritedNames →
            setHandler serverInfo type handler = Some serverInfo) ∧
  (∀ created listen_error,
     setHandler (snd (startCoap created listen_error)) type handler = None).
Proof.
  split; [| split; [| reflexivity]].
  - unfold setHandler. destruct (handlers serverInfo) as [table |].
    + destruct (table !! type) as [entry |] eqn:Hentry.
      * split; [discriminate |].
        intros [Hnull | (t & [= <-] & Hno & _)]; congruence.
      * destruct (existsb (String.eqb type) inheritedNames) eqn:Hname.
        -- apply inherited_name_test in Hname. split; [discriminate |].
           intros [Hnull | (t & _ & _ & Hout)]; [discriminate | contradiction].
        -- split; [| reflexivity]. intros _. right. exists table.
           split; [reflexivity |]. split; [exact Hentry |].
           intros Hin%inherited_name_test. congruence.
    + split; [| reflexivity]. intros _. now left.
  - intros table Htable Hentry Hin%inherited_name_test.
    unfold setHandler. now rewrite Htable, Hentry, Hin.
Qed.

(** X10: a handler installed with [setHandler] is the one dispatch passes
    to the library handler: a request whose first matching route names the
    operation reaches the unchanged library handler with the new user
    handler. *)
Theorem setHandler_then_dispatch serverInfo serverInfo' handler table entry
    earlier route later req res path :
  handlers serverInfo = Some table →
  table !! route_operation route = Some entry →
  setHandler serverInfo (route_operation route) handler = Some serverInfo' →
  url_pathname (url_parse (in_url req)) = Some path →
  routes serverInfo = earlier ++ route :: later →
  (∀ r, r ∈ earlier → ¬ routeMatches r (in_method req) path) →
  routeMatches route (in_method req) path →
  dataHandler serverInfo' req res
    = Completed [mkLibCall (lib entry)
                   (mkIncoming (in_method req) (in_url req)
                      (Some (url_parse (in_url req))))
                   res handler] res.
Proof.
  intros Htable Hentry Hset Hpath Hroutes Hearlier Hmatch.
  unfold setHandler in Hset. rewrite Htable, Hentry in Hset.
  injection Hset as <-. unfold dataHandler. cbn [handlers routes].
  rewrite Hpath, Hroutes, scanRoutes_skip by exact Hearlier.
  apply routeMatches_test, andb_true_iff in Hmatch as [Hmethod Hpattern].
  cbn [scanRoutes in_method]. rewrite Hmethod, Hpattern, lookup_insert_eq.
  reflexivity.
Qed.

(** X11: dispatch has no fallback for a broken table: when the first
    matching route names an operation without a handler pair, or the
    handler table is [null], the handler throws and the response is not
    written, not even with 4.04; the same happens when the url has no
    pathname and some route carries the request's method. *)
Theorem dataHandler_throws serverInfo req res :
  (∀ path earlier route later,
     url_pathname (url_parse (in_url req)) = Some path →
     routes serverInfo = earlier ++ route :: later →
     (∀ r, r ∈ earlier → ¬ routeMatches r (in_method req) path) →
     routeMatches route (in_method req) path →
     (handlers serverInfo = None ∨
      ∃ table, handlers serverInfo = Some table ∧
               table !! route_operation route = None) →
     dataHandler serverInfo req res = Threw) ∧
  (url_pathname (url_parse (in_url req)) = None →
   (∃ r, r ∈ routes serverInfo ∧ in_method req = route_method r) →
   dataHandler serverInfo req res = Threw).
Proof.
  split.
  - intros path earlier route later Hpath Hroutes Hearlier Hmatch Hbroken.
    unfold dataHandler. rewrite Hpath, Hroutes, scanRoutes_skip by exact Hearlier.
    apply routeMatches_test, andb_true_iff in Hmatch as [Hmethod Hpattern].
    cbn [scanRoutes in_method]. rewrite Hmethod, Hpattern.
    destruct Hbroken as [-> | (table & -> & ->)]; reflexivity.
  - intros Hpath (r & Hin & Hmethod). unfold dataHandler. rewrite Hpath.
    induction (routes serverInfo) as [|r' rs IH]; [inversion Hin |].
    cbn [scanRoutes in_method].
    destruct (String.eqb_spec (in_method req) (route_method r')) as [_ | Hne];
      [reflexivity |].
    apply IH. apply elem_of_cons in Hin as [-> | Hin]; [contradiction | exact Hin].
Qed.

(** *** The routes of a client *)

Lemma append_is_cons (a : string) (c : ascii) (rest : string) :
  ∃ c' rest', a +:+ String c rest = String c' rest'.
Proof. destruct a as [|x a]; [now exists c, rest | now exists x, (a +:+ String c rest)]. Qed.

(** X12: the path pattern of the client routes is unanchored: it accepts
    exactly the strings in which some ['/'] is directly followed by a
    decimal digit, whatever stands before or after. *)
Theorem lwm2m_path_pattern_spec (s : string) :
  lwm2m_path_pattern s = true ↔
  ∃ before d after,
    s = before +:+ String "/" (String d after) ∧ is_digit d = true.
Proof.
  split.
  - induction s as [|c rest IH]; [discriminate |].
    cbn [lwm2m_path_pattern]. destruct rest as [|d rest']; [discriminate |].
    intros [Hhere | Hlater]%orb_true_iff.
    + apply andb_true_iff in Hhere as [Hslash%Ascii.eqb_eq Hdigit]. subst c.
      now exists "", d, rest'.
    + destruct (IH Hlater) as (before & d' & after & -> & Hdigit).
      exists (String c before), d', after. split; [now rewrite append_cons | exact Hdigit].
  - intros (before & d & after & -> & Hdigit).
    induction before as [|c before IH].
    + change ("" +:+ String "/" (String d after)) with (String "/" (String d after)).
      cbn [lwm2m_path_pattern]. now rewrite Ascii.eqb_refl, Hdigit.
    + rewrite append_cons.
      destruct (append_is_cons before "/" (String d after)) as (c' & rest' & Heq).
      rewrite Heq in *.
      change (lwm2m_path_pattern (String c (String c' rest')))
        with ((Ascii.eqb c "/"%char && is_digit c')
              || lwm2m_path_pattern (String c' rest')).
      rewrite IH. apply orb_true_r.
Qed.

(** X13: on a client whose listener has started, every request with a
    parsed path is answered without throwing: PUT on a matching path goes
    to the write handler, GET on a matching path to the read handler, each
    with the default user handler; any other method, or a path the pattern
    rejects, gets 4.04 with an empty body. *)
Theorem client_router_dispatch host port started deviceInformation req res path :
  startListener host port (None, started) = inr deviceInformation →
  url_pathname (url_parse (in_url req)) = Some path →
  let parsed := mkIncoming (in_method req) (in_url req)
                  (Some (url_parse (in_url req))) in
  let answer := dataHandler (serverInfo deviceInformation) req res in
  (in_method req = "PUT" → lwm2m_path_pattern path = true →
     answer = Completed [mkLibCall WriteHandle parsed res DefaultHandler] res) ∧
  (in_method req = "GET" → lwm2m_path_pattern path = true →
     answer = Completed [mkLibCall ReadHandle parsed res DefaultHandler] res) ∧
  ((in_method req ≠ "PUT" ∧ in_method req ≠ "GET") ∨ lwm2m_path_pattern path = false →
     answer = Completed [] {| res_code := "4.04"; res_body := Some "" |}).
Proof.
  intros [= <-] Hpath parsed answer. unfold answer, dataHandler.
  cbn [serverInfo loadRoutes loadHandlers routes handlers].
  rewrite Hpath. fold parsed. cbn [scanRoutes route_method route_pattern route_operation].
  cbn [parsed in_method].
  split; [| split].
  - intros -> ->. cbn [String.eqb]. rewrite lookup_insert_eq. reflexivity.
  - intros -> ->.
    change (String.eqb "GET" "PUT") with false.
    change (String.eqb "GET" "GET") with true. cbv iota.
    rewrite lookup_insert_ne by discriminate. rewrite lookup_insert_eq. reflexivity.
  - intros [[Hput Hget] | ->].
    + now rewrite (eqb_false_of_ne _ _ Hput), (eqb_false_of_ne _ _ Hget).
    + destruct (String.eqb (in_method req) "PUT"), (String.eqb (in_method req) "GET");
        reflexivity.
Qed.

End RouterExtras.

(** ** The registration lifecycle beyond the round trip *)

Section LifecycleExtras.
Import CoapRouter Client Spec Tally.
Context `{!Config, !ObjectRegistry}.

(** *** Payload *)

Lemma generatePayload_fold (n : nat) (objects : list LwObject) (index : nat)
    (previous : string) :
  (objects ≠ [] → index + length objects = S n) →
  fold_left
    (fun '(index, previous) current =>
       let result := previous +:+ "<" +:+ objectUri current +:+ ">" in
       (S index, if negb (Nat.eqb index n) then result +:+ "," else result))
    objects (index, previous)
  = (index + length objects, previous +:+ String.concat "," (token <$> objects)).
Proof.
  revert index previous.
  induction objects as [|o objects IH]; intros index previous Hlast.
  - cbn. now rewrite append_empty_r, Nat.add_0_r.
  - cbn [fold_left]. specialize (Hlast ltac:(discriminate)). cbn [length] in Hlast.
    destruct objects as [|o' objects].
    + cbn [length] in Hlast. assert (index = n) as -> by lia.
      rewrite Nat.eqb_refl. cbn. now rewrite Nat.add_1_r.
    + assert (Hne : index ≠ n) by (cbn [length] in Hlast; lia).
      apply Nat.eqb_neq in Hne. rewrite Hne. cbn [negb].
      rewrite IH by (intros _; cbn [length] in *; lia).
      f_equal; [cbn [length]; lia |].
      change (String.concat "," (token <$> o :: o' :: objects))
        with (token o +:+ "," +:+ String.concat "," (token <$> o' :: objects)).
      unfold token at 2. now rewrite !append_assoc.
Qed.

Lemma generatePayload_concat (objects : list LwObject) :
  generatePayload objects = String.concat "," (token <$> objects).
Proof.
  unfold generatePayload.
  match goal with |- snd ?folded = _ =>
    assert (Hfold : folded
                    = (0 + length objects, "" +:+ String.concat "," (token <$> objects)))
  end.
  { apply generatePayload_fold.
    intros Hne. destruct objects; [congruence | cbn [length]; lia]. }
  now rewrite Hfold.
Qed.

(** X14: the registration payload is the list of [<objectUri>] tokens
    joined by commas: a comma after every token but the last, none before
    the first, and the empty string for an empty object list. *)
Theorem generatePayload_joined (objects : list LwObject) (last : LwObject) :
  generatePayload [] = "" ∧
  generatePayload (objects ++ [last])
    = String.concat "" ((λ o, token o +:+ ",") <$> objects) +:+ token last ∧
  generatePayload objects = String.concat "," (token <$> objects).
Proof.
  split; [reflexivity |]. split; [| apply generatePayload_concat].
  rewrite generatePayload_concat.
  induction objects as [|o objects IH]; [reflexivity |].
  cbn [app fmap list_fmap] in *.
  destruct objects as [|o' objects].
  - cbn. now rewrite append_assoc.
  - change (String.concat "," (token o :: (token <$> (o' :: objects) ++ [last])))
      with (token o +:+ "," +:+ String.concat "," (token <$> (o' :: objects) ++ [last])).
    cbn [app fmap list_fmap] in *. rewrite IH.
    change (String.concat "" ((token o +:+ ",") :: (token o' +:+ ",")
              :: ((λ o, token o +:+ ",") <$> objects)))
      with ((token o +:+ ",") +:+ "" +:+ String.concat ""
              ((token o' +:+ ",") :: ((λ o, token o +:+ ",") <$> objects))).
    now rewrite !append_assoc.
Qed.

(** *** What [register] sends *)

(** X15: whether or not the local listener could start, [register] pipes
    the object listing into a POST on [<url>/rd] ([/rd] when the url is
    falsy) of the given host and port, with the endpoint name, lifetime,
    version and binding in the query; the completion callback has not been
    invoked at that point, so a listen error is not reported. *)
Theorem register_sends_listing host port url endpointName start objects :
  objRegistry_list = inr objects →
  let r := register host port url endpointName start in
  effects r =
    [Piped {| req_host := host; req_port := port; req_method := "POST";
              req_pathname := (if truthy url then to_string url else "") +:+ "/rd";
              req_query := Some ("ep=" +:+ endpointName +:+ "&lt="
                                   +:+ to_string (lifetime client) +:+ "&lwm2m="
                                   +:+ to_string (version client) +:+ "&b=U");
              req_payload := None; req_options := []; req_agent := None |}
           (String.concat "," (token <$> objects))] ∧
  callbacks (effects r) = [] ∧
  errorEmitted r = false.
Proof.
  intros Hlist r. unfold r, register, sendObjects. cbn [effects errorEmitted].
  rewrite Hlist, generatePayload_concat. repeat split.
Qed.

(** X16: when the object listing fails, neither [register] nor [update]
    sends anything, and neither invokes the completion callback: the
    listing error is dropped. *)
Theorem listing_failure_is_silent host port url endpointName start deviceInformation error :
  objRegistry_list = inl error →
  effects (register host port url endpointName start) = [] ∧
  ex_effects (updateRegistration deviceInformation) = [].
Proof.
  intros Hlist. unfold register, updateRegistration, sendObjects.
  cbn [effects ex_effects]. now rewrite Hlist.
Qed.

(** *** Responses *)

(** X17: a response with a code other than 2.01 is reported as
    RegistrationFailed with that code and changes nothing else: the
    location is not recorded even if the response carries a Location-Path
    option, and the local router is not stopped. *)
Theorem registration_rejected_keeps_router (r : Registration) (res : Response) :
  code res ≠ "2.01" →
  callbacks (effects (onResponse r res))
    = callbacks (effects r) ++ [inl (RegistrationFailed (code res))] ∧
  deviceInformation (onResponse r res) = deviceInformation r ∧
  router_stops (effects (onResponse r res)) = router_stops (effects r) ∧
  errorEmitted (onResponse r res) = errorEmitted r.
Proof.
  intros Hcode. destruct (onResponse_rejected r res Hcode) as (Hdi & Hflag & Heff).
  rewrite Heff, callbacks_app, router_stops_app. cbn [callbacks router_stops flat_map].
  rewrite !app_nil_r. repeat split; assumption.
Qed.

(** X18: a 2.01 response changes at most the location of the device
    information: host, port and server information are the ones
    [register] set up, whatever options the response carries, and the
    router keeps running. *)
Theorem registration_accepted_frame (r : Registration) (di : DeviceInformation)
    (res : Response) :
  deviceInformation r = Some di →
  code res = "2.01" →
  ∃ di',
    deviceInformation (onResponse r res) = Some di' ∧
    currentHost di' = currentHost di ∧
    currentPort di' = currentPort di ∧
    serverInfo di' = serverInfo di ∧
    router_stops (effects (onResponse r res)) = router_stops (effects r).
Proof.
  intros Hdi Hcode. destruct (onResponse_created r di res Hdi Hcode) as (Hdi' & _ & Heff).
  destruct (recordLocation_frame (options res) di) as (Hhost & Hport & Hinfo).
  eexists. split; [exact Hdi' |]. rewrite Heff, router_stops_app.
  cbn [router_stops flat_map]. rewrite !app_nil_r. repeat split; assumption.
Qed.

(** *** Without a listener *)

Lemma deliver_without_listener (r : Registration) (e : Event) :
  deviceInformation r = None →
  deviceInformation (deliver r e) = None ∧
  ∃ added,
    callbacks (effects (deliver r e)) = callbacks (effects r) ++ added ∧
    ∀ x, x ∈ added → ∃ c, c ≠ "2.01" ∧ x = inl (RegistrationFailed c).
Proof.
  intros Hnone. destruct e as [res | error]; cbn [deliver].
  - unfold onResponse, createRegisterResponseHandler. rewrite Hnone.
    destruct (String.eqb_spec (code res) "2.01") as [Hcode | Hcode];
      cbn [deviceInformation effects]; (split; [reflexivity |]).
    + exists []. rewrite callbacks_app. split; [reflexivity |].
      intros x Hx. inversion Hx.
    + exists [inl (RegistrationFailed (code res))]. rewrite callbacks_app.
      split; [reflexivity |].
      intros x Hx%list_elem_of_singleton. subst x. now exists (code res).
  - unfold onError. rewrite Hnone. cbn [deviceInformation effects].
    split; [reflexivity |]. exists []. rewrite callbacks_app. split; [reflexivity |].
    intros x Hx. inversion Hx.
Qed.

Lemma deliverAll_without_listener (events : list Event) (r : Registration) :
  deviceInformation r = None →
  ∃ added,
    callbacks (effects (deliverAll r events)) = callbacks (effects r) ++ added ∧
    ∀ x, x ∈ added → ∃ c, c ≠ "2.01" ∧ x = inl (RegistrationFailed c).
Proof.
  revert r. induction events as [|e events IH]; intros r Hnone.
  - exists []. split; [now rewrite app_nil_r | intros x Hx; inversion Hx].
  - destruct (deliver_without_listener r e Hnone) as (Hnone' & added1 & Hlog1 & Hall1).
    destruct (IH (deliver r e) Hnone') as (added2 & Hlog2 & Hall2).
    exists (added1 ++ added2). unfold deliverAll in *. cbn [fold_left].
    rewrite Hlog2, Hlog1, <- app_assoc. split; [reflexivity |].
    intros x [Hx | Hx]%elem_of_app; auto.
Qed.

(** X19: when the local listener failed to start, the completion callback
    is never told so, and it can never report success or ServerNotFound:
    whatever events follow, every invocation carries RegistrationFailed
    with a code other than 2.01; an error event and a 2.01 response both
    throw instead of calling back. *)
Theorem register_without_listener host port url endpointName listen_error created
    (events : list Event) (error : string) (res : Response) :
  let r := register host port url endpointName (Some listen_error, created) in
  (∀ x, x ∈ callbacks (effects (deliverAll r events)) →
        ∃ c, c ≠ "2.01" ∧ x = inl (RegistrationFailed c)) ∧
  effects (deliver r (ErrorEvent error)) = effects r ++ [Thrown] ∧
  (code res = "2.01" → effects (deliver r (ResponseEvent res)) = effects r ++ [Thrown]).
Proof.
  intros r.
  assert (Hnone : deviceInformation r = None) by reflexivity.
  split; [| split].
  - destruct (deliverAll_without_listener events r Hnone) as (added & Hlog & Hall).
    rewrite Hlog. unfold r. rewrite (proj1 (register_quiet _ _ _ _ _)). exact Hall.
  - reflexivity.
  - intros Hcode. cbn [deliver]. unfold onResponse, createRegisterResponseHandler.
    rewrite Hcode. reflexivity.
Qed.

(** *** Any sequence of events *)

Lemma once_step (already : bool) (e : Event) (events : list Event) :
  once already (e :: events)
    = (if is_error_event e && negb already then 1 else 0)
      + once (already || is_error_event e) events.
Proof.
  unfold once. cbn [existsb]. destruct already, (is_error_event e); reflexivity.
Qed.

Lemma deliver_tally (r : Registration) (di : DeviceInformation) (e : Event) :
  deviceInformation r = Some di →
  (∃ di', deviceInformation (deliver r e) = Some di') ∧
  errorEmitted (deliver r e) = errorEmitted r || is_error_event e ∧
  length (callbacks (effects (deliver r e)))
    = length (callbacks (effects r))
      + ((if is_response_event e then 1 else 0)
         + (if is_error_event e && negb (errorEmitted r) then 1 else 0)) ∧
  length (List.filter is_server_not_found (callbacks (effects (deliver r e))))
    = length (List.filter is_server_not_found (callbacks (effects r)))
      + (if is_error_event e && negb (errorEmitted r) then 1 else 0) ∧
  length (router_stops (effects (deliver r e)))
    = length (router_stops (effects r)) + (if is_error_event e then 1 else 0).
Proof.
  intros Hdi. destruct e as [res | error]; cbn [deliver is_error_event is_response_event].
  - rewrite orb_false_r. cbn [andb].
    destruct (String.eqb_spec (code res) "2.01") as [Hcode | Hcode].
    + destruct (onResponse_created r di res Hdi Hcode) as (Hdi' & Hflag & Heff).
      rewrite Hdi', Hflag, Heff, callbacks_app, router_stops_app, List.filter_app,
        !length_app.
      cbn. split; [eauto |]. repeat split; lia.
    + destruct (onResponse_rejected r res Hcode) as (Hdi' & Hflag & Heff).
      rewrite Hdi', Hflag, Heff, callbacks_app, router_stops_app, List.filter_app,
        !length_app, Hdi.
      cbn. split; [eauto |]. repeat split; lia.
  - rewrite orb_true_r. cbn [andb].
    destruct (errorEmitted r) eqn:Hflag.
    + destruct (onError_again r di Hdi Hflag) as (Hdi' & Hflag' & Heff).
      rewrite Hdi', Hflag', Heff, callbacks_app, router_stops_app, List.filter_app,
        !length_app.
      cbn. split; [eauto |]. repeat split; lia.
    + destruct (onError_first r di Hdi Hflag) as (Hdi' & Hflag' & _ & Heff).
      rewrite Hdi', Hflag', Heff, callbacks_app, router_stops_app, List.filter_app,
        !length_app.
      cbn. split; [eauto |]. repeat split; lia.
Qed.

Lemma deliverAll_tally (events : list Event) (r : Registration) (di : DeviceInformation) :
  deviceInformation r = Some di →
  length (callbacks (effects (deliverAll r events)))
    = length (callbacks (effects r))
      + length (List.filter is_response_event events) + once (errorEmitted r) events ∧
  length (List.filter is_server_not_found (callbacks (effects (deliverAll r events))))
    = length (List.filter is_server_not_found (callbacks (effects r)))
      + once (errorEmitted r) events ∧
  length (router_stops (effects (deliverAll r events)))
    = length (router_stops (effects r)) + length (List.filter is_error_event events).
Proof.
  revert r di. induction events as [|e events IH]; intros r di Hdi.
  - unfold once. cbn. destruct (errorEmitted r); repeat split; lia.
  - destruct (deliver_tally r di e Hdi) as ((di' & Hdi') & Hflag & Hcalls & Hfound & Hstops).
    destruct (IH (deliver r e) di' Hdi') as (IHcalls & IHfound & IHstops).
    unfold deliverAll in *. cbn [fold_left].
    rewrite IHcalls, IHfound, IHstops, Hcalls, Hfound, Hstops, Hflag, once_step.
    cbn [List.filter].
    destruct e as [res | error]; cbn [is_error_event is_response_event length andb];
      repeat split; lia.
Qed.

(** X20: over any sequence of response and error events on a registration
    whose listener started, the completion callback is invoked once per
    response event plus once for the first error event; ServerNotFound is
    reported at most once, exactly when an error event occurred; and the
    router is asked to stop once per error event. *)
Theorem registration_event_tally host port url endpointName started (events : list Event) :
  let log := effects (deliverAll (register host port url endpointName (None, started))
                        events) in
  let failed := if existsb is_error_event events then 1 else 0 in
  length (callbacks log) = length (List.filter is_response_event events) + failed ∧
  length (List.filter is_server_not_found (callbacks log)) = failed ∧
  length (router_stops log) = length (List.filter is_error_event events).
Proof.
  intros log failed.
  destruct (deliverAll_tally events
              (register host port url endpointName (None, started)) _ eq_refl)
    as (Hcalls & Hfound & Hstops).
  unfold log. rewrite Hcalls, Hfound, Hstops.
  destruct (register_quiet host port url endpointName (None, started)) as [-> ->].
  repeat split.
Qed.

(** *** unregister *)

(** X21: registering and then unregistering closes the loop: after a 2.01
    response whose last Location-Path option is [V], unregistering with the
    device information handed to the callback ends (and so sends) a DELETE
    without payload to the host and port of the registration, on path [V],
    with the agent switched off; nothing is stopped until a response
    arrives, and on any response the router stopped is the one [register]
    started, the caller's callback being handed to the stop. *)
Theorem register_then_unregister host port url endpointName started res V di res' :
  code res = "2.01" →
  lastLocationPath (options res) = Some V →
  deviceInformation (onResponse (register host port url endpointName (None, started)) res)
    = Some di →
  let delete :=
    {| req_host := host; req_port := port; req_method := "DELETE";
       req_pathname := V; req_query := None; req_payload := None;
       req_options := []; req_agent := Some false |} in
  let x := unregister_onResponse (unregister di) res' in
  ex_effects (unregister di) = [Ended delete] ∧
  ex_effects x
    = [Ended delete; RouterStop (loadRoutes (loadHandlers started)) CompletionCallback] ∧
  ex_request x = delete ∧
  server <$> router_stops (ex_effects x) = [server started].
Proof.
  intros Hcode Hlast Hdi delete x.
  destruct (onResponse_created (register host port url endpointName (None, started))
              _ res eq_refl Hcode) as (Hdi' & _ & _).
  rewrite Hdi' in Hdi. injection Hdi as <-.
  unfold x, delete, unregister_onResponse, unregister, clientRequest.
  cbn [ex_request ex_effects ex_deviceInformation router_stops flat_map app
       fmap list_fmap].
  rewrite recordLocation_last, Hlast.
  match goal with |- context [recordLocation ?d ?o] =>
    destruct (recordLocation_frame o d) as (-> & -> & ->) end.
  repeat split.
Qed.

End LifecycleExtras.

(** ** The further properties on concrete input *)

Section ExtrasExamples.
Import DeviceManagement CoapRouter Client Spec Tally Samples Outage.

Lemma lookup_failure_sends_nothing_witness :
  run (@read registry (answering content) (VStr "9") (VStr "3") (VStr "0") (VStr "1"))
    = (inl (CollaboratorError "device not found"), []) ∧
  wired (@writeAttributes registry (answering content)
           (VStr "9") (VStr "3") (VStr "0") (VStr "1") (plain mixed)) = [].
Proof.
  destruct (@lookup_failure_sends_nothing registry (answering content)
              (VStr "9") (VStr "3") (VStr "0") (VStr "1") (VStr "on") (VFun done)
              (plain mixed) (CollaboratorError "device not found") eq_refl)
    as (Hread & _ & _ & _ & Hsent & _).
  split; assumption.
Defined.

Lemma transport_failure_propagates_witness :
  run (@write registry unreachable (VStr "1") (VStr "3") (VStr "0") (VStr "1") (VStr "on"))
    = (inl (CollaboratorError "request timed out"),
       [@createUpdateRequest (VStr "3") (VStr "0") (VStr "1") (VStr "on")
          (mkDevice "10.0.0.5")]).
Proof.
  apply (@transport_failure_propagates registry unreachable
           (VStr "1") (VStr "3") (VStr "0") (VStr "1") (VStr "on")
           (mkDevice "10.0.0.5") (CollaboratorError "request timed out") eq_refl
           (λ _, eq_refl)).
Defined.

Lemma read_create_exchange_witness :
  result_of (@read registry (answering content) (VNum 42) (VStr "3") (VStr "0") (VStr "1"))
    = inr "</3/0>" ∧
  req_pathname <$> sent_by (@create registry (answering content)
                              (VNum 42) (VStr "3") (VStr "7")) = ["/3/7"].
Proof.
  destruct (@read_create_exchange registry (answering content)
              (VNum 42) (VStr "3") (VStr "0") (VStr "1") (mkDevice "10.0.0.5")
              (λ _, content) eq_refl (λ _, eq_refl)) as [Hread _].
  destruct (@read_create_exchange registry (answering content)
              (VNum 42) (VStr "3") (VStr "7") (VStr "1") (mkDevice "10.0.0.5")
              (λ _, content) eq_refl (λ _, eq_refl)) as [_ Hcreate].
  unfold result_of, sent_by. rewrite Hread, Hcreate. split; reflexivity.
Defined.

Lemma inherited_properties_ignored_witness :
  createQueryParams (plain [mkProperty "colour" (VStr "red") false;
                            mkProperty "pmin" (VNum 5) true])
    = createQueryParams (plain [mkProperty "pmin" (VNum 5) true]) ∧
  createQueryParams (plain [mkProperty "colour" (VStr "red") false]) = Some (inr "?").
Proof.
  split.
  - apply (proj1 (inherited_properties_ignored
                    (plain [mkProperty "pmin" (VNum 5) true])
                    (plain [mkProperty "colour" (VStr "red") false;
                            mkProperty "pmin" (VNum 5) true]) eq_refl));
      reflexivity.
  - apply (proj2 (inherited_properties_ignored
                    (plain [mkProperty "colour" (VStr "red") false])
                    (plain []) eq_refl)).
    reflexivity.
Defined.

Lemma writeAttributes_without_test_throws_witness :
  @writeAttributes registry (answering changed) (VStr "1") (VStr "3") (VStr "0") (VStr "1")
     (plain [mkProperty "hasOwnProperty" (VNum 1) true])
    = {| delivered := None; wired := []; threw := true |} ∧
  @writeAttributes registry (answering changed) (VStr "9") (VStr "3") (VStr "0") (VStr "1")
     (mkAttributes [mkProperty "pmin" (VNum 5) true] None)
    = {| delivered := Some (inl (CollaboratorError "device not found"));
         wired := []; threw := true |}.
Proof.
  split.
  - destruct (proj1 (@writeAttributes_without_test_throws registry (answering changed)
                       (VStr "1") (VStr "3") (VStr "0") (VStr "1")
                       (plain [mkProperty "hasOwnProperty" (VNum 1) true]) eq_refl))
      as (Hthrew & Hwired & Hgot); [discriminate |].
    reflexivity.
  - destruct (proj1 (@writeAttributes_without_test_throws registry (answering changed)
                       (VStr "9") (VStr "3") (VStr "0") (VStr "1")
                       (mkAttributes [mkProperty "pmin" (VNum 5) true] None) eq_refl))
      as (Hthrew & Hwired & Hgot); [discriminate |].
    reflexivity.
Defined.

Lemma writeAttributes_path_depth_witness :
  req_pathname <$> wired (@writeAttributes registry (answering changed)
                            (VStr "1") (VStr "3") (VStr "0") VUndefined (plain accepted))
    = ["/3/0?pmin=5&lt=7&"] ∧
  req_pathname <$> wired (@writeAttributes registry (answering changed)
                            (VStr "1") (VStr "3") VUndefined (VStr "1") (plain accepted))
    = ["/3?pmin=5&lt=7&"].
Proof.
  assert (Hvalid : ∀ k, k ∈ ownKeys accepted → k ∈ validAttributes).
  { intros k Hk. rewrite <- indexOf_found.
    apply elem_of_cons in Hk as [-> | Hk]; [reflexivity |].
    apply list_elem_of_singleton in Hk as ->. reflexivity. }
  split.
  - apply (@writeAttributes_path_depth registry (answering changed)
             (VStr "1") (VStr "3") (VStr "0") VUndefined (plain accepted)
             (mkDevice "10.0.0.5") eq_refl eq_refl Hvalid eq_refl); reflexivity.
  - apply (@writeAttributes_path_depth registry (answering changed)
             (VStr "1") (VStr "3") VUndefined (VStr "1") (plain accepted)
             (mkDevice "10.0.0.5") eq_refl eq_refl Hvalid eq_refl); reflexivity.
Defined.

Lemma discover_without_address_is_silent_witness :
  let d := @discover registry (answering content)
             (VNum 42) VUndefined VUndefined VUndefined (VFun done) in
  started d = None ∧ discovery_sent d = [] ∧ is_function (trueCallback d) = false.
Proof.
  pose proof (@discover_without_address_is_silent registry (answering content)
                (VNum 42) VUndefined VUndefined VUndefined (VFun done)) as [Hiff Hquiet].
  cbv zeta. split.
  - apply Hiff. repeat split.
  - apply Hquiet; reflexivity.
Defined.

Lemma defaultHandler_last_function_witness :
  defaultHandler [VStr "/3/0/1"; VFun handler; VFun done; VNum 1] = Invoked done [] ∧
  defaultHandler [VNum 1] = TypeErrorThrown.
Proof.
  apply (defaultHandler_last_function [VStr "/3/0/1"; VFun handler] [VNum 1] done).
  intros v Hv%list_elem_of_singleton. subst v. reflexivity.
Defined.

Lemma listening_read_slot :
  clientTable !! "read" = Some (mkHandlerPair ReadHandle DefaultHandler).
Proof.
  unfold clientTable. rewrite lookup_insert_ne by discriminate. apply lookup_insert_eq.
Qed.

Lemma setHandler_replaces_user_witness :
  ∃ serverInfo' table',
    setHandler listening "read" (UserHandler handler) = Some serverInfo' ∧
    handlers serverInfo' = Some table' ∧
    table' !! "read" = Some (mkHandlerPair ReadHandle (UserHandler handler)) ∧
    (∀ other, other ≠ "read" → table' !! other = clientTable !! other) ∧
    routes serverInfo' = routes listening ∧
    server serverInfo' = server listening.
Proof.
  apply (setHandler_replaces_user listening "read" (UserHandler handler) clientTable
           (mkHandlerPair ReadHandle DefaultHandler) eq_refl listening_read_slot).
Defined.

Lemma setHandler_needs_slot_witness :
  setHandler listening "observe" (UserHandler handler) = None ∧
  setHandler listening "constructor" (UserHandler handler) = Some listening ∧
  setHandler fresh "read" (UserHandler handler) = None.
Proof.
  pose proof (λ serverInfo type,
                setHandler_needs_slot serverInfo type (UserHandler handler)) as Hslot.
  split; [| split].
  - apply (proj1 (Hslot listening "observe")).
    right. exists clientTable. split; [reflexivity |]. split.
    + unfold clientTable. rewrite !lookup_insert_ne by discriminate. apply lookup_empty.
    + rewrite <- inherited_name_test. discriminate.
  - apply (proj1 (proj2 (Hslot listening "constructor")) clientTable eq_refl).
    + unfold clientTable. rewrite !lookup_insert_ne by discriminate. apply lookup_empty.
    + left.
  - apply (proj2 (proj2 (Hslot fresh "read"))).
Defined.

Lemma setHandler_then_dispatch_witness :
  ∃ serverInfo',
    setHandler listening "read" (UserHandler handler) = Some serverInfo' ∧
    @dataHandler urls serverInfo' (mkIncoming "GET" "/3/0/1" None) untouched
      = Completed [mkLibCall ReadHandle
                     (mkIncoming "GET" "/3/0/1" (Some (mkUrl (Some "/3/0/1"))))
                     untouched (UserHandler handler)] untouched.
Proof.
  assert (Hset : setHandler listening "read" (UserHandler handler)
                 = Some {| server := server listening; routes := routes listening;
                           handlers := Some (<["read" := mkHandlerPair ReadHandle
                                                           (UserHandler handler)]>
                                               clientTable) |}).
  { unfold setHandler.
    change (handlers listening) with (Some clientTable). cbv beta iota.
    now rewrite listening_read_slot. }
  eexists. split; [exact Hset |].
  apply (@setHandler_then_dispatch urls listening _ (UserHandler handler) clientTable
           (mkHandlerPair ReadHandle DefaultHandler)
           [mkRoute "PUT" lwm2m_path_pattern "write"]
           (mkRoute "GET" lwm2m_path_pattern "read") []
           (mkIncoming "GET" "/3/0/1" None) untouched "/3/0/1"
           eq_refl listening_read_slot Hset eq_refl eq_refl).
  - intros r Hr%list_elem_of_singleton [Hmethod _]. subst r. discriminate.
  - split; reflexivity.
Defined.

Lemma dataHandler_throws_witness :
  @dataHandler urls (loadRoutes fresh) (mkIncoming "GET" "/3/0/1" None) untouched = Threw ∧
  @dataHandler noPath listening (mkIncoming "GET" "" None) untouched = Threw.
Proof.
  split.
  - apply (proj1 (@dataHandler_throws urls (loadRoutes fresh)
                    (mkIncoming "GET" "/3/0/1" None) untouched)
             "/3/0/1" [mkRoute "PUT" lwm2m_path_pattern "write"]
             (mkRoute "GET" lwm2m_path_pattern "read") [] eq_refl eq_refl).
    + intros r Hr%list_elem_of_singleton [Hmethod _]. subst r. discriminate.
    + split; reflexivity.
    + now left.
  - apply (proj2 (@dataHandler_throws noPath listening
                    (mkIncoming "GET" "" None) untouched) eq_refl).
    exists (mkRoute "GET" lwm2m_path_pattern "read").
    split; [right; left | reflexivity].
Defined.

Lemma lwm2m_path_pattern_spec_witness :
  lwm2m_path_pattern "/rd/1x" = true ∧
  ∃ before d after, "/3/0" = before +:+ String "/" (String d after) ∧ is_digit d = true.
Proof.
  split.
  - apply (proj2 (lwm2m_path_pattern_spec "/rd/1x")).
    exists "/rd", "1"%char, "x". split; reflexivity.
  - apply (proj1 (lwm2m_path_pattern_spec "/3/0")). reflexivity.
Defined.

Lemma client_router_dispatch_witness :
  let di := mkDeviceInformation "localhost" (VStr "5683") "" listening in
  @dataHandler urls (serverInfo di) (mkIncoming "PUT" "/3/0/1" None) untouched
    = Completed [mkLibCall WriteHandle
                   (mkIncoming "PUT" "/3/0/1" (Some (mkUrl (Some "/3/0/1"))))
                   untouched DefaultHandler] untouched ∧
  @dataHandler urls (serverInfo di) (mkIncoming "POST" "/3/0/1" None) untouched
    = Completed [] {| res_code := "4.04"; res_body := Some "" |} ∧
  @dataHandler urls (serverInfo di) (mkIncoming "GET" "/rd" None) untouched
    = Completed [] {| res_code := "4.04"; res_body := Some "" |}.
Proof.
  cbv zeta.
  pose proof (λ req path, @client_router_dispatch urls "localhost" (VStr "5683") fresh
                _ req untouched path eq_refl) as Hclient.
  cbv zeta in Hclient. split; [| split].
  - apply (Hclient (mkIncoming "PUT" "/3/0/1" None) "/3/0/1" eq_refl); reflexivity.
  - apply (Hclient (mkIncoming "POST" "/3/0/1" None) "/3/0/1" eq_refl).
    left. split; discriminate.
  - apply (Hclient (mkIncoming "GET" "/rd" None) "/rd" eq_refl). now right.
Defined.

Lemma register_sends_listing_witness :
  effects (@register config objects "localhost" (VStr "5683") VUndefined "robot1"
             (Some busy, fresh))
    = [Piped {| req_host := "localhost"; req_port := VStr "5683"; req_method := "POST";
                req_pathname := "/rd";
                req_query := Some "ep=robot1&lt=85671&lwm2m=1.0&b=U";
                req_payload := None; req_options := []; req_agent := None |}
             "</1/2>,</3/4>"].
Proof.
  apply (@register_sends_listing config objects "localhost" (VStr "5683") VUndefined
           "robot1" (Some busy, fresh) [mkObject "/1/2"; mkObject "/3/4"] eq_refl).
Defined.

Lemma listing_failure_is_silent_witness :
  effects (@register config noListing "localhost" (VStr "5683") VUndefined "robot1"
             (None, fresh)) = [] ∧
  ex_effects (@updateRegistration config noListing registered) = [].
Proof.
  apply (@listing_failure_is_silent config noListing "localhost" (VStr "5683") VUndefined
           "robot1" (None, fresh) registered (CollaboratorError "listing failed") eq_refl).
Defined.

Lemma registration_rejected_keeps_router_witness :
  let r := @register config objects "localhost" (VStr "5683") VUndefined "robot1"
             (None, fresh) in
  let res := mkResponse "4.00" "" [mkOption "Location-Path" "/rd/9"] in
  callbacks (effects (onResponse r res))
    = callbacks (effects r) ++ [inl (RegistrationFailed "4.00")] ∧
  deviceInformation (onResponse r res) = deviceInformation r ∧
  router_stops (effects (onResponse r res)) = router_stops (effects r) ∧
  errorEmitted (onResponse r res) = errorEmitted r.
Proof.
  apply registration_rejected_keeps_router. discriminate.
Defined.

Lemma registration_accepted_frame_witness :
  let r := @register config objects "localhost" (VStr "5683") VUndefined "robot1"
             (None, fresh) in
  let res := created [mkOption "Location-Path" "/rd/136"] in
  ∃ di',
    deviceInformation (onResponse r res) = Some di' ∧
    currentHost di' = "localhost" ∧
    currentPort di' = VStr "5683" ∧
    serverInfo di' = listening ∧
    router_stops (effects (onResponse r res)) = router_stops (effects r).
Proof.
  apply (registration_accepted_frame
           (@register config objects "localhost" (VStr "5683") VUndefined "robot1"
              (None, fresh))
           (mkDeviceInformation "localhost" (VStr "5683") "" listening)
           (created [mkOption "Location-Path" "/rd/136"]) eq_refl eq_refl).
Defined.

Lemma register_without_listener_witness :
  let r := @register config objects "localhost" (VStr "5683") VUndefined "robot1"
             (Some busy, fresh) in
  callbacks (effects (deliverAll r [ResponseEvent (created []); ErrorEvent "ECONNRESET"]))
    = [] ∧
  effects (deliver r (ResponseEvent (created []))) = effects r ++ [Thrown].
Proof.
  cbv zeta.
  destruct (@register_without_listener config objects "localhost" (VStr "5683")
              VUndefined "robot1" busy fresh
              [ResponseEvent (created []); ErrorEvent "ECONNRESET"] "ECONNRESET"
              (created [])) as (_ & _ & Hthrown).
  split; [reflexivity | apply Hthrown; reflexivity].
Defined.

Lemma register_then_unregister_witness :
  let di := mkDeviceInformation "localhost" (VStr "5683") "/rd/136" listening in
  let delete :=
    {| req_host := "localhost"; req_port := VStr "5683"; req_method := "DELETE";
       req_pathname := "/rd/136"; req_query := None; req_payload := None;
       req_options := []; req_agent := Some false |} in
  let x := unregister_onResponse (unregister di) (mkResponse "2.02" "" []) in
  ex_effects (unregister di) = [Ended delete] ∧
  ex_effects x = [Ended delete; RouterStop listening CompletionCallback] ∧
  ex_request x = delete ∧
  server <$> router_stops (ex_effects x) = [server fresh].
Proof.
  apply (@register_then_unregister config objects "localhost" (VStr "5683") VUndefined
           "robot1" fresh (created [mkOption "Location-Path" "/rd/136"]) "/rd/136");
    reflexivity.
Defined.

End ExtrasExamples.
